(** * SG-Property-Calculator: the calculation engine and the URL codec

    A shallow embedding of
      - [src/utils/calculations.ts]  (policy tables, loan and affordability maths),
      - the [useMemo] body of [src/App.tsx] (the valuation engine),
      - [utils/url-state], kept as [src/unnamed/part_002] (the query-string codec),
      - [utils/constants], kept as [src/unnamed/part_003] ([DEFAULT_INPUTS]),
      - [interface PropertyInputs], as [src/unnamed/part_001] declares it,
    followed by the properties of the specification that were checked
    against them.

    Numbers.  A JavaScript [number] is modelled by a real number: every
    arithmetic operation is exact, there is no rounding, no [NaN] and no
    [Infinity].  Where the program divides by zero or raises a negative
    base to a fractional power the model returns an arbitrary real, so a
    statement whose truth depends on such an operation carries the
    hypothesis that keeps the run inside finite arithmetic
    ([finite_arithmetic] for a run of the engine).  The one quotient by
    zero that the program lives with, the TDSR bound of
    [calculateMaxAffordablePrice] at a loan percentage of zero, is kept
    as [Infinity].

    Rounding.  The loan and affordability functions are given a second
    time in module [Binary64], on the double-precision numbers that the
    program runs on.  What is stated there is what the program computes,
    digit for digit; it is used where a result sits on a threshold and
    the rounding of one operation decides. *)

From stdpp Require Import gmap strings.
From Stdlib Require Import Reals Lra Lia DecimalString DecimalZ Floats.

Local Open Scope R_scope.

(* A decimal literal of a double-precision number stands for the nearest
   one, as in JavaScript. *)
Set Warnings "-inexact-float".

(** ** JavaScript comparisons and [Math] on real numbers *)

#[global] Instance Rgt_decision (x y : R) : Decision (x > y) := Rgt_dec x y.
#[global] Instance Rlt_decision (x y : R) : Decision (x < y) := Rlt_dec x y.
#[global] Instance Rle_decision (x y : R) : Decision (x <= y) := Rle_dec x y.
#[global] Instance Rge_decision (x y : R) : Decision (x >= y) := Rge_dec x y.
#[global] Instance Req_decision : EqDecision R := Req_dec_T.

Definition Math_min (x y : R) : R := Rmin x y.
Definition Math_max (x y : R) : R := Rmax x y.
Definition Math_abs (x : R) : R := Rabs x.

(** [Math.floor]: the greatest integer below or equal to [x]. *)
Definition Math_floor (x : R) : R := IZR (Int_part x).

(** [Math.round]: halves go up, that is [floor (x + 0.5)]. *)
Definition Math_round (x : R) : R := IZR (Int_part (x + 0.5)).

(** [Math.pow].  A positive base takes any exponent.  A base that is not
    positive takes an integer exponent (sign by parity, [0 ^ 0 = 1],
    [0 ^ n = 0]); JavaScript answers [NaN] for a negative base with a
    fractional exponent and [Infinity] for zero to a negative power, which
    the last branch and [powerRZ] do not represent. *)
Definition Math_pow (x y : R) : R :=
  if decide (0 < x) then Rpower x y
  else if decide (y = IZR (Int_part y)) then powerRZ x (Int_part y)
  else 0.

(** A quotient that JavaScript may answer with [Infinity]: a positive
    number over zero.  A negative number over zero is [-Infinity] and
    zero over zero is [NaN]; for these the model goes on with the real
    [x / 0]. *)
Inductive quotient : Type :=
  | Finite (q : R)
  | Infinity.

Definition JS_div (x y : R) : quotient :=
  if decide (y = 0 /\ x > 0) then Infinity else Finite (x / y).

(** [Math.min] of a number and a quotient: [Infinity] is never the
    smaller of the two. *)
Definition Math_min_quotient (x : R) (q : quotient) : R :=
  match q with
  | Finite y => Math_min x y
  | Infinity => x
  end.

(** ** src/utils/calculations.ts *)

(** The six accumulation statements of [calculateBSD], one per band. *)
Definition bsd_band1 (price bsd : R) : R :=
  if decide (price > 0) then bsd + Math_min price 180000 * 0.01 else bsd.
Definition bsd_band2 (price bsd : R) : R :=
  if decide (price > 180000) then bsd + Math_min (price - 180000) 180000 * 0.02 else bsd.
Definition bsd_band3 (price bsd : R) : R :=
  if decide (price > 360000) then bsd + Math_min (price - 360000) 640000 * 0.03 else bsd.
Definition bsd_band4 (price bsd : R) : R :=
  if decide (price > 1000000) then bsd + Math_min (price - 1000000) 500000 * 0.04 else bsd.
Definition bsd_band5 (price bsd : R) : R :=
  if decide (price > 1500000) then bsd + Math_min (price - 1500000) 1500000 * 0.05 else bsd.
Definition bsd_band6 (price bsd : R) : R :=
  if decide (price > 3000000) then bsd + (price - 3000000) * 0.06 else bsd.

Definition calculateBSD (price : R) : R :=
  let bsd := 0 in
  let bsd := bsd_band1 price bsd in
  let bsd := bsd_band2 price bsd in
  let bsd := bsd_band3 price bsd in
  let bsd := bsd_band4 price bsd in
  let bsd := bsd_band5 price bsd in
  let bsd := bsd_band6 price bsd in
  bsd.

(** At run time a [ResidencyStatus] is a string and a [PropertyNumber] a
    number; the TypeScript union types are erased. *)
Definition calculateABSD (price : R) (status : string) (propertyNumber : R) : R :=
  let rate :=
    if decide (status = "citizen") then
      if decide (propertyNumber = 1) then 0
      else if decide (propertyNumber = 2) then 0.20
      else 0.30
    else if decide (status = "pr") then
      if decide (propertyNumber = 1) then 0.05
      else if decide (propertyNumber = 2) then 0.30
      else 0.35
    else 0.60 in
  price * rate.

Definition getABSDRate (status : string) (propertyNumber : R) : R :=
  if decide (status = "citizen") then
    if decide (propertyNumber = 1) then 0
    else if decide (propertyNumber = 2) then 20
    else 30
  else if decide (status = "pr") then
    if decide (propertyNumber = 1) then 5
    else if decide (propertyNumber = 2) then 30
    else 35
  else 60.

(** How a call ends: with a value, or with a thrown error. *)
Inductive JSError : Type := InvalidArgument | OtherError.
Inductive completion (A : Type) : Type :=
  | Returns (v : A)
  | Throws (e : JSError).
Arguments Returns {A} v.
Arguments Throws {A} e.

(** Neither body contains a [throw]: every call completes with the value
    of its [return]. *)
Definition calculateABSD_call (price : R) (status : string) (propertyNumber : R)
  : completion R := Returns (calculateABSD price status propertyNumber).
Definition getABSDRate_call (status : string) (propertyNumber : R)
  : completion R := Returns (getABSDRate status propertyNumber).

(** The enumerated domain of the two lookups. *)
Definition enumerated (status : string) (propertyNumber : R) : Prop :=
  (status = "citizen" \/ status = "pr" \/ status = "foreigner") /\
  (propertyNumber = 1 \/ propertyNumber = 2 \/ propertyNumber = 3).

Definition calculateLegalFees (price : R) : R :=
  if decide (price <= 1000000) then 2500
  else if decide (price <= 2000000) then 3000
  else if decide (price <= 3000000) then 3500
  else 5000.

Definition calculateSSD (price yearsHeld : R) : R :=
  if decide (yearsHeld >= 3) then 0
  else if decide (yearsHeld < 1) then price * 0.12
  else if decide (yearsHeld < 2) then price * 0.08
  else price * 0.04.

Definition calculatePropertyTax (annualRent : R) (isOwnerOccupied : bool) : R :=
  let av := annualRent in
  if isOwnerOccupied then
    let tax := 0 in
    let tax := if decide (av > 0) then tax + Math_min av 8000 * 0 else tax in
    let tax := if decide (av > 8000) then tax + Math_min (av - 8000) 22000 * 0.04 else tax in
    let tax := if decide (av > 30000) then tax + Math_min (av - 30000) 10000 * 0.06 else tax in
    let tax := if decide (av > 40000) then tax + Math_min (av - 40000) 15000 * 0.10 else tax in
    let tax := if decide (av > 55000) then tax + Math_min (av - 55000) 15000 * 0.14 else tax in
    let tax := if decide (av > 70000) then tax + Math_min (av - 70000) 15000 * 0.20 else tax in
    let tax := if decide (av > 85000) then tax + Math_min (av - 85000) 15000 * 0.26 else tax in
    let tax := if decide (av > 100000) then tax + (av - 100000) * 0.32 else tax in
    tax
  else
    let tax := 0 in
    let tax := if decide (av > 0) then tax + Math_min av 30000 * 0.12 else tax in
    let tax := if decide (av > 30000) then tax + Math_min (av - 30000) 15000 * 0.20 else tax in
    let tax := if decide (av > 45000) then tax + Math_min (av - 45000) 15000 * 0.28 else tax in
    let tax := if decide (av > 60000) then tax + (av - 60000) * 0.36 else tax in
    tax.

Definition calculateMonthlyPayment (principal annualRate years : R) : R :=
  if decide (principal = 0) then 0
  else if decide (annualRate = 0) then principal / (years * 12)
  else
    let monthlyRate := annualRate / 100 / 12 in
    let numPayments := years * 12 in
    principal * (monthlyRate * Math_pow (1 + monthlyRate) numPayments)
      / (Math_pow (1 + monthlyRate) numPayments - 1).

Definition calculateTDSR (monthlyPayment existingDebt monthlyIncome : R) : R :=
  if decide (monthlyIncome = 0) then 0
  else ((monthlyPayment + existingDebt) / monthlyIncome) * 100.

Definition calculateCpfAccruedInterest (cpfUsed years : R) : R :=
  if decide (cpfUsed = 0 \/ years = 0) then 0
  else cpfUsed * (Math_pow 1.025 years - 1).

Definition calculateRentalIncomeTax (grossRent mortgageInterest marginalTaxRate : R) : R :=
  let deemedExpenses := grossRent * 0.15 in
  let taxableIncome := Math_max 0 (grossRent - deemedExpenses - mortgageInterest) in
  taxableIncome * (marginalTaxRate / 100).

Definition estimateMonthlyRental (price : R) : R :=
  let avgYield := 0.032 in
  Math_round ((price * avgYield) / 12 / 100) * 100.

Definition estimateCurrentRent (price : R) : R :=
  let rentMultiplier := 0.035 in
  Math_round ((price * rentMultiplier) / 12 / 100) * 100.

Definition calculateMaxAffordablePrice
    (cashAvailable cpfOaBalance monthlyIncome existingDebt
     loanPercentage interestRate loanTenure : R) : R :=
  let downpaymentPercent := (100 - loanPercentage) / 100 in
  let maxFromCashCpf := (cashAvailable + cpfOaBalance * 0.95) / (downpaymentPercent + 0.05) in
  let maxMonthlyPayment := monthlyIncome * 0.55 - existingDebt in
  if decide (maxMonthlyPayment <= 0) then 0
  else
    let monthlyRate := interestRate / 100 / 12 in
    let numPayments := loanTenure * 12 in
    let maxLoan :=
      if decide (monthlyRate > 0)
      then maxMonthlyPayment * (1 - Math_pow (1 + monthlyRate) (- numPayments)) / monthlyRate
      else maxMonthlyPayment * numPayments in
    let maxFromTDSR := JS_div maxLoan (loanPercentage / 100) in
    Math_floor (Math_min_quotient maxFromCashCpf maxFromTDSR / 50000) * 50000.

(** The two bounds that [calculateMaxAffordablePrice] takes the minimum of,
    named as in its body; the second one for a loan percentage other than
    zero, where it is a number. *)
Definition maxFromCashCpf (cashAvailable cpfOaBalance loanPercentage : R) : R :=
  (cashAvailable + cpfOaBalance * 0.95) / ((100 - loanPercentage) / 100 + 0.05).

Definition maxFromTDSR
    (monthlyIncome existingDebt loanPercentage interestRate loanTenure : R) : R :=
  let maxMonthlyPayment := monthlyIncome * 0.55 - existingDebt in
  let monthlyRate := interestRate / 100 / 12 in
  let numPayments := loanTenure * 12 in
  let maxLoan :=
    if decide (monthlyRate > 0)
    then maxMonthlyPayment * (1 - Math_pow (1 + monthlyRate) (- numPayments)) / monthlyRate
    else maxMonthlyPayment * numPayments in
  maxLoan / (loanPercentage / 100).

(** ** The loan and affordability functions on double-precision numbers *)

(** A JavaScript [number] is an IEEE 754 binary64 value and [+], [-], [*]
    and [/] round to nearest, as the primitive floating-point numbers
    do.  A decimal literal stands for the nearest binary64 value in both.
    [Math.pow] is the platform's function and stays a parameter. *)
Module Binary64.

Local Open Scope float_scope.

(** [Math.floor].  From [2^52] on every value is an integer; below it,
    adding and subtracting [2^52] rounds to the nearest integer, which is
    the floor or one above it.  The zeros, [NaN] and the infinities are
    returned as they are. *)
Definition Math_floor (x : float) : float :=
  if (abs x <? 0x1p52) && negb (x =? 0) then
    let nearest := if 0 <? x then (x + 0x1p52) - 0x1p52 else (x - 0x1p52) + 0x1p52 in
    if x <? nearest then nearest - 1 else nearest
  else x.

(** [Math.min] of two numbers: [NaN] if either is, and [-0] below [+0]. *)
Definition Math_min (x y : float) : float :=
  if is_nan x || is_nan y then nan
  else if x <? y then x
  else if y <? x then y
  else if 1 / x <? 0 then x else y.

Section Calculations.

Variable Math_pow : float -> float -> float.

Definition calculateMonthlyPayment (principal annualRate years : float) : float :=
  if principal =? 0 then 0
  else if annualRate =? 0 then principal / (years * 12)
  else
    let monthlyRate := annualRate / 100 / 12 in
    let numPayments := years * 12 in
    principal * (monthlyRate * Math_pow (1 + monthlyRate) numPayments)
      / (Math_pow (1 + monthlyRate) numPayments - 1).

Definition calculateTDSR (monthlyPayment existingDebt monthlyIncome : float) : float :=
  if monthlyIncome =? 0 then 0
  else ((monthlyPayment + existingDebt) / monthlyIncome) * 100.

Definition calculateMaxAffordablePrice
    (cashAvailable cpfOaBalance monthlyIncome existingDebt
     loanPercentage interestRate loanTenure : float) : float :=
  let downpaymentPercent := (100 - loanPercentage) / 100 in
  let maxFromCashCpf := (cashAvailable + cpfOaBalance * 0.95) / (downpaymentPercent + 0.05) in
  let maxMonthlyPayment := monthlyIncome * 0.55 - existingDebt in
  if maxMonthlyPayment <=? 0 then 0
  else
    let monthlyRate := interestRate / 100 / 12 in
    let numPayments := loanTenure * 12 in
    let maxLoan :=
      if 0 <? monthlyRate
      then maxMonthlyPayment * (1 - Math_pow (1 + monthlyRate) (- numPayments)) / monthlyRate
      else maxMonthlyPayment * numPayments in
    let maxFromTDSR := maxLoan / (loanPercentage / 100) in
    Math_floor (Math_min maxFromCashCpf maxFromTDSR / 50000) * 50000.

(** The loan of a purchase and the TDSR verdict on it, as the engine
    computes them ([loanAmount], [monthlyPayment], [tdsr], [tdsrOk]). *)
Definition loanAmount (price loanPercentage : float) : float :=
  price * (loanPercentage / 100).

Definition tdsrOk (price loanPercentage loanInterestRate loanTenureYears
                   existingMonthlyDebt monthlyIncome : float) : bool :=
  let monthlyPayment :=
    calculateMonthlyPayment (loanAmount price loanPercentage)
      loanInterestRate loanTenureYears in
  calculateTDSR monthlyPayment existingMonthlyDebt monthlyIncome <=? 55.

End Calculations.

End Binary64.

(** ** The engine input: [interface PropertyInputs] *)

Record PropertyInputs : Type := {
  price : R;
  residencyStatus : string;
  propertyType : string;
  propertyNumber : R;
  expectedRentalYield : R;
  holdingPeriodYears : R;
  annualAppreciation : R;
  loanPercentage : R;
  loanInterestRate : R;
  loanTenureYears : R;
  monthlyIncome : R;
  monthlyCondoFees : R;
  isRentingOut : bool;
  cashAvailable : R;
  cpfOaBalance : R;
  useCpfForDownpayment : bool;
  useCpfForMonthly : bool;
  existingMonthlyDebt : R;
  marginalTaxRate : R;
  currentMonthlyRent : R;
  expectedMonthlyRental : R;
  rentOutRoom : bool;
  roomRentalIncome : R;
  annualWorkIncome : R;
  agentFeePercent : R;
  prevailingInterestRate : R;
  loanLockInYears : R;
  includeRenovation : bool;
  renovationCost : R;
  vacancyWeeksPerYear : R
}.

(** ** utils/constants (src/unnamed/part_003) *)

Definition DEFAULT_PRICE : R := 1500000.

Definition DEFAULT_INPUTS : PropertyInputs := {|
  price := DEFAULT_PRICE;
  residencyStatus := "pr";
  propertyType := "private";
  propertyNumber := 1;
  expectedRentalYield := 3.2;
  holdingPeriodYears := 5;
  annualAppreciation := 3.0;
  loanPercentage := 75;
  loanInterestRate := 2.6;
  loanTenureYears := 30;
  monthlyIncome := 15000;
  monthlyCondoFees := 300;
  isRentingOut := false;
  cashAvailable := 500000;
  cpfOaBalance := 150000;
  useCpfForDownpayment := true;
  useCpfForMonthly := false;
  existingMonthlyDebt := 0;
  marginalTaxRate := 15;
  currentMonthlyRent := estimateCurrentRent DEFAULT_PRICE;
  expectedMonthlyRental := estimateMonthlyRental DEFAULT_PRICE;
  rentOutRoom := false;
  roomRentalIncome := 1500;
  annualWorkIncome := 185000;
  agentFeePercent := 2;
  prevailingInterestRate := 2.8;
  loanLockInYears := 2;
  includeRenovation := false;
  renovationCost := 50000;
  vacancyWeeksPerYear := 4
|}.

(** The [value]s of [TAX_BRACKETS]. *)
Definition TAX_BRACKETS : list R :=
  [0; 2; 3.5; 7; 11.5; 15; 18; 19; 19.5; 20; 22; 23; 24].

(** ** src/App.tsx: the [calculations] memo, one definition per [const] *)

Section Engine.

Variable inputs : PropertyInputs.

(* === UPFRONT COSTS (BUYING) === *)
Definition bsd : R := calculateBSD (price inputs).
Definition absd : R :=
  calculateABSD (price inputs) (residencyStatus inputs) (propertyNumber inputs).
Definition absdRate : R := getABSDRate (residencyStatus inputs) (propertyNumber inputs).
Definition legalFees : R := calculateLegalFees (price inputs).
Definition valuationFee : R := 500.
Definition stampDutyOnMortgage : R := (price inputs * loanPercentage inputs / 100) * 0.004.
Definition fireInsurance : R := 150.
Definition homeInsurance : R := 200.

Definition totalStampDuty : R := bsd + absd.
Definition totalUpfrontCosts : R :=
  totalStampDuty + legalFees + valuationFee + stampDutyOnMortgage
  + (if includeRenovation inputs then renovationCost inputs else 0).

(* Loan calculations *)
Definition loanAmount : R := price inputs * (loanPercentage inputs / 100).
Definition downPayment : R := price inputs - loanAmount.
Definition monthlyPayment : R :=
  calculateMonthlyPayment loanAmount (loanInterestRate inputs) (loanTenureYears inputs).
Definition totalLoanPaymentsFullTenure : R := monthlyPayment * loanTenureYears inputs * 12.
Definition totalInterestPaid : R := totalLoanPaymentsFullTenure - loanAmount.

(* CPF usage calculations *)
Definition minCashDownpayment : R := price inputs * 0.05.
Definition maxCpfForDownpayment : R :=
  if useCpfForDownpayment inputs
  then Math_min (cpfOaBalance inputs) (downPayment - minCashDownpayment)
  else 0.
Definition cpfUsedForDownpayment : R := Math_max 0 maxCpfForDownpayment.
Definition cashForDownpayment : R := downPayment - cpfUsedForDownpayment.

Definition monthlyFromCpf : R :=
  if useCpfForMonthly inputs
  then Math_min monthlyPayment (cpfOaBalance inputs / (loanTenureYears inputs * 12))
  else 0.
Definition totalCpfForMonthly : R := monthlyFromCpf * holdingPeriodYears inputs * 12.
Definition totalCpfUsed : R := cpfUsedForDownpayment + totalCpfForMonthly.

Definition cpfAccruedInterest : R :=
  calculateCpfAccruedInterest cpfUsedForDownpayment (holdingPeriodYears inputs)
  + calculateCpfAccruedInterest (totalCpfForMonthly / 2) (holdingPeriodYears inputs / 2).
Definition totalCpfRefund : R := totalCpfUsed + cpfAccruedInterest.

(* TDSR check *)
Definition tdsr : R :=
  calculateTDSR monthlyPayment (existingMonthlyDebt inputs) (monthlyIncome inputs).
Definition tdsrOk : bool := bool_decide (tdsr <= 55).
Definition tdsrRemaining : R := 55 - tdsr.

(* Cash needed upfront *)
Definition cashNeeded : R := cashForDownpayment + totalUpfrontCosts.

(* Affordability check *)
Definition canAfford : bool :=
  bool_decide (cashAvailable inputs >= cashNeeded)
  && tdsrOk
  && (if useCpfForDownpayment inputs
      then bool_decide (cpfOaBalance inputs >= cpfUsedForDownpayment)
      else true).
Definition shortfall : R :=
  if canAfford then 0 else Math_max 0 (cashNeeded - cashAvailable inputs).

Definition maxAffordablePrice : R :=
  calculateMaxAffordablePrice
    (cashAvailable inputs)
    (if useCpfForDownpayment inputs then cpfOaBalance inputs else 0)
    (monthlyIncome inputs)
    (existingMonthlyDebt inputs)
    (loanPercentage inputs)
    (loanInterestRate inputs)
    (loanTenureYears inputs).

(* === RENTAL / INCOME CALCULATIONS === *)
Definition monthlyRentalIncome : R :=
  if isRentingOut inputs then expectedMonthlyRental inputs else 0.
Definition annualRentalIncome : R := monthlyRentalIncome * 12.

Definition monthlyRoomIncome : R :=
  if negb (isRentingOut inputs) && rentOutRoom inputs then roomRentalIncome inputs else 0.
Definition annualRoomIncome : R := monthlyRoomIncome * 12.

Definition monthlySavedRent : R :=
  if negb (isRentingOut inputs) then currentMonthlyRent inputs else 0.
Definition annualSavedRent : R := monthlySavedRent * 12.

Definition annualValue : R := expectedMonthlyRental inputs * 12.
Definition annualPropertyTax : R :=
  calculatePropertyTax annualValue (negb (isRentingOut inputs)).

(* === INCOME TAX CALCULATIONS === *)
Definition annualMortgageInterest : R := totalInterestPaid / loanTenureYears inputs.

Definition annualRentalTax : R :=
  if isRentingOut inputs
  then calculateRentalIncomeTax annualRentalIncome annualMortgageInterest (marginalTaxRate inputs)
  else 0.
Definition annualRoomTax : R :=
  if negb (isRentingOut inputs) && rentOutRoom inputs
  then calculateRentalIncomeTax annualRoomIncome 0 (marginalTaxRate inputs)
  else 0.
Definition totalRentalTax : R :=
  (annualRentalTax + annualRoomTax) * holdingPeriodYears inputs.

(* === HOLDING COSTS (Annual) === *)
Definition annualCondoFees : R := monthlyCondoFees inputs * 12.
Definition annualRepairs : R := price inputs * 0.01.
Definition annualInsurance : R := fireInsurance + homeInsurance.
Definition annualMaintenance : R := annualCondoFees + annualRepairs + annualInsurance.

Definition vacancyLoss : R :=
  if isRentingOut inputs
  then expectedMonthlyRental inputs * vacancyWeeksPerYear inputs / 4.33
  else 0.
Definition effectiveAnnualRental : R := annualRentalIncome - vacancyLoss.

(* === ANNUAL CASHFLOW === *)
Definition annualIncomeFromProperty : R :=
  if isRentingOut inputs then effectiveAnnualRental else annualSavedRent + annualRoomIncome.
Definition annualLoanRepayment : R := monthlyPayment * 12.
Definition annualNetCashflow : R :=
  annualIncomeFromProperty
  - annualPropertyTax
  - (annualRentalTax + annualRoomTax)
  - annualLoanRepayment
  - annualMaintenance.

(* === FUTURE VALUE / SELLING CALCULATIONS === *)
Definition futureValue : R :=
  price inputs * Math_pow (1 + annualAppreciation inputs / 100) (holdingPeriodYears inputs).
Definition capitalGain : R := futureValue - price inputs.

Definition monthlyRate : R := loanInterestRate inputs / 100 / 12.
Definition paymentsRemaining : R :=
  (loanTenureYears inputs - holdingPeriodYears inputs) * 12.
Definition remainingLoan : R :=
  if bool_decide (paymentsRemaining > 0) && bool_decide (monthlyRate > 0)
  then monthlyPayment * (1 - Math_pow (1 + monthlyRate) (- paymentsRemaining)) / monthlyRate
  else 0.

(* === SELLING COSTS === *)
Definition agentCommission : R := futureValue * (agentFeePercent inputs / 100).
Definition sellingLegalFees : R := 2500.
Definition earlyRepaymentPenalty : R :=
  if decide (holdingPeriodYears inputs < loanLockInYears inputs)
  then remainingLoan * 0.015
  else 0.
Definition ssd : R := calculateSSD futureValue (holdingPeriodYears inputs).
Definition ssdApplies : bool := bool_decide (holdingPeriodYears inputs < 3).

Definition totalRentalIncome : R := annualRentalIncome * holdingPeriodYears inputs.
Definition totalSavedRent : R := annualSavedRent * holdingPeriodYears inputs.
Definition totalRoomIncome : R := annualRoomIncome * holdingPeriodYears inputs.
Definition totalIncomeFromProperty : R :=
  annualIncomeFromProperty * holdingPeriodYears inputs.

Definition holdingCosts : R :=
  (annualPropertyTax + annualMaintenance) * holdingPeriodYears inputs.
Definition totalLoanPayments : R :=
  annualLoanRepayment * Math_min (holdingPeriodYears inputs) (loanTenureYears inputs).
Definition interestDuringHolding : R := totalLoanPayments - (loanAmount - remainingLoan).

(* === PRESENT VALUE / FUTURE VALUE OF CASHFLOWS === *)
Definition discountFactor : R := 1 / (1 + prevailingInterestRate inputs / 100).

(** The [for (let year = 1; year <= holdingPeriodYears; year++)] loop on
    the pair [(pvCashflows, fvCashflows)].  The guard is tested at every
    turn; [fuel] only bounds the recursion. *)
Fixpoint cashflow_loop (fuel : nat) (year pvCashflows fvCashflows : R) : R * R :=
  match fuel with
  | O => (pvCashflows, fvCashflows)
  | S fuel' =>
      if decide (year <= holdingPeriodYears inputs) then
        cashflow_loop fuel' (year + 1)
          (pvCashflows + annualNetCashflow * Math_pow discountFactor year)
          (fvCashflows + annualNetCashflow
             * Math_pow (1 + prevailingInterestRate inputs / 100)
                        (holdingPeriodYears inputs - year))
      else (pvCashflows, fvCashflows)
  end.

(** [up h] is the least integer above [h]: more turns than the loop takes. *)
Definition cashflow_fuel : nat := Z.to_nat (up (holdingPeriodYears inputs)).
Definition pvCashflows : R := fst (cashflow_loop cashflow_fuel 1 0 0).
Definition fvCashflows : R := snd (cashflow_loop cashflow_fuel 1 0 0).

(* === FINAL YIELD CALCULATION === *)
Definition sellingCosts : R :=
  ssd + agentCommission + sellingLegalFees + earlyRepaymentPenalty.
Definition salesIncome : R := futureValue - sellingCosts - remainingLoan.
Definition cpfOpportunityCost : R := cpfAccruedInterest.

Definition totalInitialExpense : R := totalUpfrontCosts + downPayment.
Definition pvNegativeCashflows : R :=
  if decide (pvCashflows < 0) then Math_abs pvCashflows else 0.
Definition totalInvestment : R := totalInitialExpense + pvNegativeCashflows.

Definition fvPositiveCashflows : R :=
  if decide (fvCashflows > 0) then fvCashflows else 0.
Definition totalReturn : R :=
  salesIncome + fvPositiveCashflows + (if isRentingOut inputs then 0 else totalSavedRent).

Definition totalVacancyLoss : R := vacancyLoss * holdingPeriodYears inputs.

Definition netProfit : R := totalReturn - totalInvestment - cpfOpportunityCost.

Definition roi : R :=
  if decide (totalInvestment > 0) then (netProfit / totalInvestment) * 100 else 0.

(* Break-even analysis *)
Definition breakEvenPrice : R :=
  price inputs + totalUpfrontCosts + holdingCosts + interestDuringHolding
  + sellingCosts + totalRentalTax - totalIncomeFromProperty.

End Engine.

(** [{ ...inputs, annualAppreciation: a }]: the same record with another
    appreciation rate. *)
Definition with_annualAppreciation (inputs : PropertyInputs) (a : R) : PropertyInputs :=
  {| price := price inputs;
     residencyStatus := residencyStatus inputs;
     propertyType := propertyType inputs;
     propertyNumber := propertyNumber inputs;
     expectedRentalYield := expectedRentalYield inputs;
     holdingPeriodYears := holdingPeriodYears inputs;
     annualAppreciation := a;
     loanPercentage := loanPercentage inputs;
     loanInterestRate := loanInterestRate inputs;
     loanTenureYears := loanTenureYears inputs;
     monthlyIncome := monthlyIncome inputs;
     monthlyCondoFees := monthlyCondoFees inputs;
     isRentingOut := isRentingOut inputs;
     cashAvailable := cashAvailable inputs;
     cpfOaBalance := cpfOaBalance inputs;
     useCpfForDownpayment := useCpfForDownpayment inputs;
     useCpfForMonthly := useCpfForMonthly inputs;
     existingMonthlyDebt := existingMonthlyDebt inputs;
     marginalTaxRate := marginalTaxRate inputs;
     currentMonthlyRent := currentMonthlyRent inputs;
     expectedMonthlyRental := expectedMonthlyRental inputs;
     rentOutRoom := rentOutRoom inputs;
     roomRentalIncome := roomRentalIncome inputs;
     annualWorkIncome := annualWorkIncome inputs;
     agentFeePercent := agentFeePercent inputs;
     prevailingInterestRate := prevailingInterestRate inputs;
     loanLockInYears := loanLockInYears inputs;
     includeRenovation := includeRenovation inputs;
     renovationCost := renovationCost inputs;
     vacancyWeeksPerYear := vacancyWeeksPerYear inputs |}.

(** The runs of the engine in which no division is by zero and no power
    has a base that is not positive, apart from the one in [futureValue]:
    the loan tenure is not zero, and the monthly growth factor of the loan
    and the yearly one of the prevailing rate are positive.  Outside them
    JavaScript goes on with [NaN] or [Infinity], where the model goes on
    with a real number: the hypothesis marks where the model speaks for
    the program, and no proof needs it. *)
Definition finite_arithmetic (inputs : PropertyInputs) : Prop :=
  loanTenureYears inputs <> 0 /\
  0 < 1 + loanInterestRate inputs / 100 / 12 /\
  0 < 1 + prevailingInterestRate inputs / 100.

(** The invariants that the specification (section 3) puts on an input
    record. *)
Definition valid_inputs (inputs : PropertyInputs) : Prop :=
  price inputs > 0 /\
  0 <= loanPercentage inputs <= 75 /\
  holdingPeriodYears inputs >= 1 /\
  0 <= monthlyIncome inputs /\
  0 <= monthlyCondoFees inputs /\
  0 <= cashAvailable inputs /\
  0 <= cpfOaBalance inputs /\
  0 <= existingMonthlyDebt inputs /\
  0 <= currentMonthlyRent inputs /\
  0 <= expectedMonthlyRental inputs /\
  0 <= roomRentalIncome inputs /\
  0 <= annualWorkIncome inputs /\
  0 <= renovationCost inputs /\
  In (marginalTaxRate inputs) TAX_BRACKETS.

(** ** utils/url-state (src/unnamed/part_002) *)

Module UrlState.

(** The run-time type of a property value, as [typeof] reports it. *)
Inductive kind : Type := KNumber | KBoolean | KString.

#[global] Instance kind_eq_dec : EqDecision kind.
Proof. solve_decision. Defined.

(** A property value.  The numbers are left open: the codec only prints
    and parses them. *)
Inductive value (num : Type) : Type :=
  | VNumber (n : num)
  | VBoolean (b : bool)
  | VString (s : string).
Arguments VNumber {num} n.
Arguments VBoolean {num} b.
Arguments VString {num} s.

Definition typeof {num : Type} (v : value num) : kind :=
  match v with
  | VNumber _ => KNumber
  | VBoolean _ => KBoolean
  | VString _ => KString
  end.

(** The object literal [COMPRESSED_KEYS], entry by entry. *)
Definition COMPRESSED_KEYS_entries : list (string * string) :=
  [ ("price", "p");
    ("residencyStatus", "rs");
    ("propertyType", "pt");
    ("propertyNumber", "pn");
    ("expectedRentalYield", "ry");
    ("holdingPeriodYears", "hp");
    ("annualAppreciation", "aa");
    ("loanPercentage", "lp");
    ("loanInterestRate", "lr");
    ("loanTenureYears", "lt");
    ("monthlyIncome", "mi");
    ("monthlyCondoFees", "cf");
    ("isRentingOut", "ro");
    ("cashAvailable", "ca");
    ("cpfOaBalance", "cpf");
    ("useCpfForDownpayment", "cd");
    ("useCpfForMonthly", "cm");
    ("existingMonthlyDebt", "ed");
    ("marginalTaxRate", "tr");
    ("currentMonthlyRent", "cr");
    ("expectedMonthlyRental", "er");
    ("rentOutRoom", "rr");
    ("roomRentalIncome", "ri");
    ("annualWorkIncome", "wi");
    ("agentFeePercent", "af");
    ("prevailingInterestRate", "pr");
    ("loanLockInYears", "ll");
    ("includeRenovation", "ir");
    ("renovationCost", "rc");
    ("vacancyWeeksPerYear", "vw") ].

(** [Object.fromEntries]: a later entry overwrites an earlier one. *)
Definition Object_fromEntries {V : Type} (entries : list (string * V)) : gmap string V :=
  foldl (fun o kv => <[kv.1 := kv.2]> o) ∅ entries.

Definition COMPRESSED_KEYS : gmap string string :=
  Object_fromEntries COMPRESSED_KEYS_entries.

Definition REVERSE_KEYS : gmap string string :=
  Object_fromEntries (map (fun kv => (kv.2, kv.1)) COMPRESSED_KEYS_entries).

(** The fields of [interface PropertyInputs] with the type each declares. *)
Definition PropertyInputs_fields : list (string * kind) :=
  [ ("price", KNumber);
    ("residencyStatus", KString);
    ("propertyType", KString);
    ("propertyNumber", KNumber);
    ("expectedRentalYield", KNumber);
    ("holdingPeriodYears", KNumber);
    ("annualAppreciation", KNumber);
    ("loanPercentage", KNumber);
    ("loanInterestRate", KNumber);
    ("loanTenureYears", KNumber);
    ("monthlyIncome", KNumber);
    ("monthlyCondoFees", KNumber);
    ("isRentingOut", KBoolean);
    ("cashAvailable", KNumber);
    ("cpfOaBalance", KNumber);
    ("useCpfForDownpayment", KBoolean);
    ("useCpfForMonthly", KBoolean);
    ("existingMonthlyDebt", KNumber);
    ("marginalTaxRate", KNumber);
    ("currentMonthlyRent", KNumber);
    ("expectedMonthlyRental", KNumber);
    ("rentOutRoom", KBoolean);
    ("roomRentalIncome", KNumber);
    ("annualWorkIncome", KNumber);
    ("agentFeePercent", KNumber);
    ("prevailingInterestRate", KNumber);
    ("loanLockInYears", KNumber);
    ("includeRenovation", KBoolean);
    ("renovationCost", KNumber);
    ("vacancyWeeksPerYear", KNumber) ].

(** A fully populated record: exactly the declared fields, each holding
    a value of its declared type. *)
Definition is_PropertyInputs {num : Type} (o : gmap string (value num)) : Prop :=
  typeof <$> o = Object_fromEntries PropertyInputs_fields.

(** A string is truthy when it is not empty. *)
Definition truthy (s : string) : bool := bool_decide (s <> "").

(** [URLSearchParams] as its list of entries.  [set] overwrites the first
    entry of that name and drops the others, or appends a new one. *)
Fixpoint params_set (params : list (string * string)) (name value : string)
  : list (string * string) :=
  match params with
  | [] => [(name, value)]
  | (n, v) :: rest =>
      if decide (n = name)
      then (name, value) :: filter (fun e => e.1 <> name) rest
      else (n, v) :: params_set rest name value
  end.

(** What the two dictionaries have to provide for a field name: a
    non-empty short key that [REVERSE_KEYS] maps back to the name. *)
Definition key_ok (key : string) : bool :=
  match COMPRESSED_KEYS !! key with
  | Some shortKey =>
      truthy shortKey && truthy key && bool_decide (REVERSE_KEYS !! shortKey = Some key)
  | None => false
  end.

Definition shortKey_of (key : string) : string :=
  match COMPRESSED_KEYS !! key with Some shortKey => shortKey | None => "" end.

Section Codec.

Context {num : Type}.
(** [String(value)] on a number, and [parseFloat] with [None] for [NaN]. *)
Variable String_number : num -> string.
Variable parseFloat : string -> option num.

(** The string a property value is written as, and the entry a
    property of a declared field becomes. *)
Definition print_value (v : value num) : string :=
  match v with
  | VBoolean b => if b then "1" else "0"
  | VNumber n => String_number n
  | VString s => s
  end.
Definition encoded_entry (entry : string * value num) : string * string :=
  (shortKey_of entry.1, print_value entry.2).

(** The body of the [for ... of Object.entries(inputs)] loop. *)
Definition encode_step (params : list (string * string)) (entry : string * value num)
  : list (string * string) :=
  let '(key, value) := entry in
  match COMPRESSED_KEYS !! key with
  | Some shortKey =>
      if truthy shortKey then
        match value with
        | VBoolean b => params_set params shortKey (if b then "1" else "0")
        | VNumber n => params_set params shortKey (String_number n)
        | VString s => params_set params shortKey s
        end
      else params
  | None => params
  end.

Definition encode_entries (entries : list (string * value num)) : list (string * string) :=
  foldl encode_step [] entries.

(** [params.toString()] and the [URLSearchParams] built from it again
    hold the same entries; the query string is kept as that list. *)
Definition encodeStateToUrl (inputs : gmap string (value num)) : list (string * string) :=
  encode_entries (map_to_list inputs).

(** The body of the [for ... of searchParams.entries()] loop. *)
Definition decode_step (defaults result : gmap string (value num))
    (entry : string * string) : gmap string (value num) :=
  let '(shortKey, value) := entry in
  match REVERSE_KEYS !! shortKey with
  | Some fullKey =>
      if truthy fullKey then
        match defaults !! fullKey with
        | Some (VBoolean _) => <[fullKey := VBoolean (bool_decide (value = "1"))]> result
        | Some (VNumber _) =>
            match parseFloat value with
            | Some parsed => <[fullKey := VNumber parsed]> result
            | None => result
            end
        | Some (VString _) => <[fullKey := VString value]> result
        | None => result
        end
      else result
  | None => result
  end.

Definition decodeStateFromUrl (searchParams : list (string * string))
    (defaults : gmap string (value num)) : gmap string (value num) :=
  foldl (decode_step defaults) defaults searchParams.

End Codec.

(** Numbers that are integers, printed in decimal as [String] prints
    them and parsed back. *)
Definition String_Z (z : Z) : string := NilZero.string_of_int (Z.to_int z).
Definition parseFloat_Z (s : string) : option Z :=
  option_map Z.of_int (NilZero.int_of_string s).

(** [DEFAULT_INPUTS] with whole numbers in the three fractional fields. *)
Definition sample_inputs : gmap string (value Z) :=
  Object_fromEntries
    [ ("price", VNumber 1500000%Z);
      ("residencyStatus", VString "pr");
      ("propertyType", VString "private");
      ("propertyNumber", VNumber 1%Z);
      ("expectedRentalYield", VNumber 3%Z);
      ("holdingPeriodYears", VNumber 5%Z);
      ("annualAppreciation", VNumber 3%Z);
      ("loanPercentage", VNumber 75%Z);
      ("loanInterestRate", VNumber 3%Z);
      ("loanTenureYears", VNumber 30%Z);
      ("monthlyIncome", VNumber 15000%Z);
      ("monthlyCondoFees", VNumber 300%Z);
      ("isRentingOut", VBoolean false);
      ("cashAvailable", VNumber 500000%Z);
      ("cpfOaBalance", VNumber 150000%Z);
      ("useCpfForDownpayment", VBoolean true);
      ("useCpfForMonthly", VBoolean false);
      ("existingMonthlyDebt", VNumber 0%Z);
      ("marginalTaxRate", VNumber 15%Z);
      ("currentMonthlyRent", VNumber 4400%Z);
      ("expectedMonthlyRental", VNumber 4000%Z);
      ("rentOutRoom", VBoolean false);
      ("roomRentalIncome", VNumber 1500%Z);
      ("annualWorkIncome", VNumber 185000%Z);
      ("agentFeePercent", VNumber 2%Z);
      ("prevailingInterestRate", VNumber 3%Z);
      ("loanLockInYears", VNumber 2%Z);
      ("includeRenovation", VBoolean false);
      ("renovationCost", VNumber 50000%Z);
      ("vacancyWeeksPerYear", VNumber 4%Z) ].

(** Another full record, every field different from [sample_inputs]. *)
Definition other_defaults : gmap string (value Z) :=
  Object_fromEntries
    [ ("price", VNumber 0%Z);
      ("residencyStatus", VString "citizen");
      ("propertyType", VString "hdb");
      ("propertyNumber", VNumber 2%Z);
      ("expectedRentalYield", VNumber 0%Z);
      ("holdingPeriodYears", VNumber 1%Z);
      ("annualAppreciation", VNumber (-1)%Z);
      ("loanPercentage", VNumber 0%Z);
      ("loanInterestRate", VNumber 0%Z);
      ("loanTenureYears", VNumber 1%Z);
      ("monthlyIncome", VNumber 0%Z);
      ("monthlyCondoFees", VNumber 0%Z);
      ("isRentingOut", VBoolean true);
      ("cashAvailable", VNumber 0%Z);
      ("cpfOaBalance", VNumber 0%Z);
      ("useCpfForDownpayment", VBoolean false);
      ("useCpfForMonthly", VBoolean true);
      ("existingMonthlyDebt", VNumber 1%Z);
      ("marginalTaxRate", VNumber 0%Z);
      ("currentMonthlyRent", VNumber 0%Z);
      ("expectedMonthlyRental", VNumber 0%Z);
      ("rentOutRoom", VBoolean true);
      ("roomRentalIncome", VNumber 0%Z);
      ("annualWorkIncome", VNumber 0%Z);
      ("agentFeePercent", VNumber 0%Z);
      ("prevailingInterestRate", VNumber 0%Z);
      ("loanLockInYears", VNumber 0%Z);
      ("includeRenovation", VBoolean true);
      ("renovationCost", VNumber 0%Z);
      ("vacancyWeeksPerYear", VNumber 0%Z) ].

End UrlState.

(** ** Sample inputs used to exercise the engine *)

(** [DEFAULT_INPUTS] held for two years. *)
Definition two_year_inputs : PropertyInputs := {|
  price := DEFAULT_PRICE;
  residencyStatus := "pr";
  propertyType := "private";
  propertyNumber := 1;
  expectedRentalYield := 3.2;
  holdingPeriodYears := 2;
  annualAppreciation := 3.0;
  loanPercentage := 75;
  loanInterestRate := 2.6;
  loanTenureYears := 30;
  monthlyIncome := 15000;
  monthlyCondoFees := 300;
  isRentingOut := false;
  cashAvailable := 500000;
  cpfOaBalance := 150000;
  useCpfForDownpayment := true;
  useCpfForMonthly := false;
  existingMonthlyDebt := 0;
  marginalTaxRate := 15;
  currentMonthlyRent := 4400;
  expectedMonthlyRental := 4000;
  rentOutRoom := false;
  roomRentalIncome := 1500;
  annualWorkIncome := 185000;
  agentFeePercent := 2;
  prevailingInterestRate := 2.8;
  loanLockInYears := 2;
  includeRenovation := false;
  renovationCost := 50000;
  vacancyWeeksPerYear := 4
|}.

(** [DEFAULT_INPUTS] with an interest-free loan. *)
Definition zero_rate_inputs : PropertyInputs := {|
  price := DEFAULT_PRICE;
  residencyStatus := "pr";
  propertyType := "private";
  propertyNumber := 1;
  expectedRentalYield := 3.2;
  holdingPeriodYears := 5;
  annualAppreciation := 3.0;
  loanPercentage := 75;
  loanInterestRate := 0;
  loanTenureYears := 30;
  monthlyIncome := 15000;
  monthlyCondoFees := 300;
  isRentingOut := false;
  cashAvailable := 500000;
  cpfOaBalance := 150000;
  useCpfForDownpayment := true;
  useCpfForMonthly := false;
  existingMonthlyDebt := 0;
  marginalTaxRate := 15;
  currentMonthlyRent := 4400;
  expectedMonthlyRental := 4000;
  rentOutRoom := false;
  roomRentalIncome := 1500;
  annualWorkIncome := 185000;
  agentFeePercent := 2;
  prevailingInterestRate := 2.8;
  loanLockInYears := 2;
  includeRenovation := false;
  renovationCost := 50000;
  vacancyWeeksPerYear := 4
|}.

(** A cash purchase by a citizen, sold after three years at the purchase
    price; [rentingOut] chooses between letting the flat and living in it,
    and [renovation] is the renovation bill. *)
Definition cash_purchase (rentingOut : bool) (renovation : R) : PropertyInputs := {|
  price := 1000000;
  residencyStatus := "citizen";
  propertyType := "private";
  propertyNumber := 1;
  expectedRentalYield := 3.2;
  holdingPeriodYears := 3;
  annualAppreciation := 0;
  loanPercentage := 0;
  loanInterestRate := 0;
  loanTenureYears := 30;
  monthlyIncome := 15000;
  monthlyCondoFees := 300;
  isRentingOut := rentingOut;
  cashAvailable := 1500000;
  cpfOaBalance := 150000;
  useCpfForDownpayment := false;
  useCpfForMonthly := false;
  existingMonthlyDebt := 0;
  marginalTaxRate := 0;
  currentMonthlyRent := 4400;
  expectedMonthlyRental := 4000;
  rentOutRoom := false;
  roomRentalIncome := 1500;
  annualWorkIncome := 185000;
  agentFeePercent := 0;
  prevailingInterestRate := 0;
  loanLockInYears := 2;
  includeRenovation := true;
  renovationCost := renovation;
  vacancyWeeksPerYear := 0
|}.

(** ** src/App.tsx: the rest of the [calculations] memo *)

Section EngineRest.

Variable inputs : PropertyInputs.

(* Affordability ratio (how stretched are you?) *)
Definition affordabilityRatio : R :=
  if decide (maxAffordablePrice inputs > 0)
  then (price inputs / maxAffordablePrice inputs) * 100
  else 100.
Definition isStretched : bool := bool_decide (affordabilityRatio > 80).
Definition isOverStretched : bool := bool_decide (affordabilityRatio > 100).

Definition totalAppreciationPercent : R :=
  (futureValue inputs / price inputs - 1) * 100.

Definition annualizedRoi : R :=
  if decide (totalInvestment inputs > 0)
  then Math_pow (1 + netProfit inputs / totalInvestment inputs)
                (1 / holdingPeriodYears inputs) - 1
  else 0.

(* Compare with alternatives (using same cash investment) *)
Definition cashInvestment : R := cashNeeded inputs.
Definition stockReturn : R :=
  cashInvestment * Math_pow 1.08 (holdingPeriodYears inputs) - cashInvestment.
Definition bondReturn : R :=
  cashInvestment * Math_pow 1.04 (holdingPeriodYears inputs) - cashInvestment.
Definition savingsReturn : R :=
  cashInvestment * Math_pow 1.025 (holdingPeriodYears inputs) - cashInvestment.
Definition reitReturn : R :=
  cashInvestment * Math_pow 1.06 (holdingPeriodYears inputs) - cashInvestment.

Definition cpfReturn : R :=
  if useCpfForDownpayment inputs
  then cpfUsedForDownpayment inputs * (Math_pow 1.025 (holdingPeriodYears inputs) - 1)
  else 0.

Definition totalCashInvestment : R := cashNeeded inputs.

End EngineRest.

(** ** src/App.tsx: [handlePriceChange] and [getInitialInputs] *)

(** [{ ...prev, price: newPrice, expectedMonthlyRental: ..., currentMonthlyRent: ... }] *)
Definition handlePriceChange (prev : PropertyInputs) (newPrice : R) : PropertyInputs :=
  {| price := newPrice;
     residencyStatus := residencyStatus prev;
     propertyType := propertyType prev;
     propertyNumber := propertyNumber prev;
     expectedRentalYield := expectedRentalYield prev;
     holdingPeriodYears := holdingPeriodYears prev;
     annualAppreciation := annualAppreciation prev;
     loanPercentage := loanPercentage prev;
     loanInterestRate := loanInterestRate prev;
     loanTenureYears := loanTenureYears prev;
     monthlyIncome := monthlyIncome prev;
     monthlyCondoFees := monthlyCondoFees prev;
     isRentingOut := isRentingOut prev;
     cashAvailable := cashAvailable prev;
     cpfOaBalance := cpfOaBalance prev;
     useCpfForDownpayment := useCpfForDownpayment prev;
     useCpfForMonthly := useCpfForMonthly prev;
     existingMonthlyDebt := existingMonthlyDebt prev;
     marginalTaxRate := marginalTaxRate prev;
     currentMonthlyRent := estimateCurrentRent newPrice;
     expectedMonthlyRental := estimateMonthlyRental newPrice;
     rentOutRoom := rentOutRoom prev;
     roomRentalIncome := roomRentalIncome prev;
     annualWorkIncome := annualWorkIncome prev;
     agentFeePercent := agentFeePercent prev;
     prevailingInterestRate := prevailingInterestRate prev;
     loanLockInYears := loanLockInYears prev;
     includeRenovation := includeRenovation prev;
     renovationCost := renovationCost prev;
     vacancyWeeksPerYear := vacancyWeeksPerYear prev |}.

(** A [PropertyInputs] record as the object the codec enumerates: its
    properties in the order of the literal. *)
Definition entries_of_inputs (i : PropertyInputs) : list (string * UrlState.value R) :=
  [ ("price", UrlState.VNumber (price i));
    ("residencyStatus", UrlState.VString (residencyStatus i));
    ("propertyType", UrlState.VString (propertyType i));
    ("propertyNumber", UrlState.VNumber (propertyNumber i));
    ("expectedRentalYield", UrlState.VNumber (expectedRentalYield i));
    ("holdingPeriodYears", UrlState.VNumber (holdingPeriodYears i));
    ("annualAppreciation", UrlState.VNumber (annualAppreciation i));
    ("loanPercentage", UrlState.VNumber (loanPercentage i));
    ("loanInterestRate", UrlState.VNumber (loanInterestRate i));
    ("loanTenureYears", UrlState.VNumber (loanTenureYears i));
    ("monthlyIncome", UrlState.VNumber (monthlyIncome i));
    ("monthlyCondoFees", UrlState.VNumber (monthlyCondoFees i));
    ("isRentingOut", UrlState.VBoolean (isRentingOut i));
    ("cashAvailable", UrlState.VNumber (cashAvailable i));
    ("cpfOaBalance", UrlState.VNumber (cpfOaBalance i));
    ("useCpfForDownpayment", UrlState.VBoolean (useCpfForDownpayment i));
    ("useCpfForMonthly", UrlState.VBoolean (useCpfForMonthly i));
    ("existingMonthlyDebt", UrlState.VNumber (existingMonthlyDebt i));
    ("marginalTaxRate", UrlState.VNumber (marginalTaxRate i));
    ("currentMonthlyRent", UrlState.VNumber (currentMonthlyRent i));
    ("expectedMonthlyRental", UrlState.VNumber (expectedMonthlyRental i));
    ("rentOutRoom", UrlState.VBoolean (rentOutRoom i));
    ("roomRentalIncome", UrlState.VNumber (roomRentalIncome i));
    ("annualWorkIncome", UrlState.VNumber (annualWorkIncome i));
    ("agentFeePercent", UrlState.VNumber (agentFeePercent i));
    ("prevailingInterestRate", UrlState.VNumber (prevailingInterestRate i));
    ("loanLockInYears", UrlState.VNumber (loanLockInYears i));
    ("includeRenovation", UrlState.VBoolean (includeRenovation i));
    ("renovationCost", UrlState.VNumber (renovationCost i));
    ("vacancyWeeksPerYear", UrlState.VNumber (vacancyWeeksPerYear i)) ].

Definition object_of_inputs (i : PropertyInputs) : gmap string (UrlState.value R) :=
  UrlState.Object_fromEntries (entries_of_inputs i).

(** [getInitialInputs].  [window] is [None] where there is no [window],
    and otherwise the entries of [new URLSearchParams(window.location.search)];
    [searchParams.toString()] is the empty string, hence falsy, exactly
    when there is no entry. *)
Definition getInitialInputs (parseFloat : string -> option R)
    (window : option (list (string * string))) : gmap string (UrlState.value R) :=
  match window with
  | Some searchParams =>
      match searchParams with
      | _ :: _ => UrlState.decodeStateFromUrl parseFloat searchParams
                    (object_of_inputs DEFAULT_INPUTS)
      | [] => object_of_inputs DEFAULT_INPUTS
      end
  | None => object_of_inputs DEFAULT_INPUTS
  end.

(** ** Further sample inputs and codec notions *)

(** [DEFAULT_INPUTS] for a buyer without income. *)
Definition no_income_inputs : PropertyInputs := {|
  price := DEFAULT_PRICE;
  residencyStatus := "pr";
  propertyType := "private";
  propertyNumber := 1;
  expectedRentalYield := 3.2;
  holdingPeriodYears := 5;
  annualAppreciation := 3.0;
  loanPercentage := 75;
  loanInterestRate := 2.6;
  loanTenureYears := 30;
  monthlyIncome := 0;
  monthlyCondoFees := 300;
  isRentingOut := false;
  cashAvailable := 500000;
  cpfOaBalance := 150000;
  useCpfForDownpayment := true;
  useCpfForMonthly := false;
  existingMonthlyDebt := 0;
  marginalTaxRate := 15;
  currentMonthlyRent := 4400;
  expectedMonthlyRental := 4000;
  rentOutRoom := false;
  roomRentalIncome := 1500;
  annualWorkIncome := 185000;
  agentFeePercent := 2;
  prevailingInterestRate := 2.8;
  loanLockInYears := 2;
  includeRenovation := false;
  renovationCost := 50000;
  vacancyWeeksPerYear := 4
|}.

(** A record that holds the price alone. *)
Definition price_only : gmap string (UrlState.value Z) :=
  {[ "price" := UrlState.VNumber 2000000%Z ]}.

(** What holds of a query string under construction: no name twice, and
    every entry written for a property of [source]. *)
Definition written_from {num : Type} (String_number : num -> string)
    (source : list (string * UrlState.value num))
    (params : list (string * string)) : Prop :=
  NoDup params.*1 /\
  forall e, e ∈ params ->
    exists key v, (key, v) ∈ source /\ UrlState.COMPRESSED_KEYS !! key = Some e.1
                  /\ e.2 = UrlState.print_value String_number v.

(** An object whose own properties are all declared fields.  On such an
    object a lookup of the model is the property access of the code; a
    property named [constructor] or [__proto__] would reach
    [Object.prototype] in JavaScript, where the model finds nothing. *)
Definition declared_fields_only {num : Type} (o : gmap string (UrlState.value num))
  : Prop :=
  map_Forall (fun key _ => is_Some (UrlState.COMPRESSED_KEYS !! key)) o.

(** * Properties *)

(** ** Proof tools *)

(** Settle the comparisons of a goal one at a time, dropping the branches
    that the hypotheses exclude. *)
Ltac js_cases :=
  repeat (case_decide; try (exfalso; lra); try congruence).

Ltac js_minmax :=
  unfold Math_min, Math_max, Rmin, Rmax;
  repeat (destruct (Rle_dec _ _); try (exfalso; lra)).

Ltac js_arith := js_cases; js_minmax; try lra.

(** Read the fields of a record that is written out. *)
Ltac fields :=
  cbn [price residencyStatus propertyType propertyNumber expectedRentalYield
       holdingPeriodYears annualAppreciation loanPercentage loanInterestRate
       loanTenureYears monthlyIncome monthlyCondoFees isRentingOut cashAvailable
       cpfOaBalance useCpfForDownpayment useCpfForMonthly existingMonthlyDebt
       marginalTaxRate currentMonthlyRent expectedMonthlyRental rentOutRoom
       roomRentalIncome annualWorkIncome agentFeePercent prevailingInterestRate
       loanLockInYears includeRenovation renovationCost vacancyWeeksPerYear].

Ltac unfold_bsd :=
  unfold calculateBSD, bsd_band1, bsd_band2, bsd_band3, bsd_band4, bsd_band5, bsd_band6.

(** ** [Math] *)

Lemma Math_pow_pos_base (x y : R) : 0 < x -> Math_pow x y = Rpower x y.
Proof. intros Hx. unfold Math_pow. by rewrite decide_True. Qed.

Lemma Math_pow_1_l (y : R) : Math_pow 1 y = 1.
Proof.
  rewrite Math_pow_pos_base by lra. unfold Rpower.
  rewrite ln_1, Rmult_0_r. apply exp_0.
Qed.

Lemma Math_pow_0_l (y : R) : 1 <= y -> Math_pow 0 y = 0.
Proof.
  intros Hy. unfold Math_pow. rewrite decide_False by lra.
  case_decide as Hint; [|reflexivity].
  destruct (base_Int_part y) as [_ Hlow].
  assert (Hpos : IZR 0 < IZR (Int_part y)) by lra.
  apply lt_IZR in Hpos.
  destruct (Int_part y) as [|p|p]; try lia.
  simpl. apply pow_i. lia.
Qed.

Lemma Math_pow_neg_base_2 (x : R) : x <= 0 -> Math_pow x 2 = x * x.
Proof.
  intros Hx. unfold Math_pow. rewrite decide_False by lra.
  assert (Hint : Int_part 2 = 2%Z) by (symmetry; apply Int_part_spec; lra).
  rewrite Hint. rewrite decide_True by reflexivity.
  simpl. lra.
Qed.

Lemma Math_floor_bounds (x : R) : Math_floor x <= x < Math_floor x + 1.
Proof. unfold Math_floor. destruct (base_Int_part x). lra. Qed.

Lemma Math_floor_eq (x : R) (z : Z) : IZR z <= x < IZR z + 1 -> Math_floor x = IZR z.
Proof.
  intros Hz. unfold Math_floor. f_equal. symmetry. apply Int_part_spec. lra.
Qed.

Lemma Int_part_nonneg (x : R) : 0 <= x -> (0 <= Int_part x)%Z.
Proof.
  intros Hx. destruct (base_Int_part x) as [_ Hlow].
  assert (Hgt : IZR (-1) < IZR (Int_part x)) by lra.
  apply lt_IZR in Hgt. lia.
Qed.

Lemma up_INR (n : nat) : up (INR n) = (Z.of_nat n + 1)%Z.
Proof.
  pose proof (Int_part_INR n) as H. unfold Int_part in H. lia.
Qed.

Lemma ln_1_plus_le (r : R) : 0 <= r -> ln (1 + r) <= r.
Proof.
  intros Hr. rewrite <- (ln_exp r) at 2.
  destruct (Rle_lt_or_eq_dec _ _ (exp_ineq1_le r)) as [Hlt|Heq].
  - left. apply ln_increasing; lra.
  - right. by rewrite Heq.
Qed.

(** The growth factor [(1 + r) ^ n] of a positive rate over a positive
    number of periods: above one, and bounded as Bernoulli's inequality
    bounds it. *)
Lemma growth_factor_bounds (r n : R) :
  0 < r -> 0 < n ->
  1 < Rpower (1 + r) n /\ Rpower (1 + r) n * (1 - r * n) <= 1.
Proof.
  intros Hr Hn. unfold Rpower.
  assert (Hln : 0 < ln (1 + r)).
  { rewrite <- ln_1. apply ln_increasing; lra. }
  assert (Hle : ln (1 + r) <= r) by (apply ln_1_plus_le; lra).
  set (t := n * ln (1 + r)).
  assert (Ht : 0 < t) by (unfold t; nra).
  assert (Htr : t <= r * n) by (unfold t; nra).
  assert (Hexp : 1 + t < exp t) by (apply exp_ineq1; lra).
  pose proof (exp_ineq1_le (- t)) as Hneg.
  pose proof (exp_pos t) as Hpos.
  assert (Hinv : exp t * exp (- t) = 1).
  { rewrite <- exp_plus. replace (t + - t) with 0 by lra. apply exp_0. }
  split; [lra|].
  destruct (Rle_or_lt 1 (r * n)) as [Hbig|Hsmall].
  - nra.
  - assert (1 - r * n <= exp (- t)) by lra.
    assert (exp t * (1 - r * n) <= exp t * exp (- t)) by (apply Rmult_le_compat_l; lra).
    lra.
Qed.

Lemma discount_factor_le_1 (r n : R) : 0 < r -> 0 <= n -> 0 < Rpower (1 + r) (- n) <= 1.
Proof.
  intros Hr Hn. unfold Rpower. split; [apply exp_pos|].
  assert (Hln : 0 < ln (1 + r)).
  { rewrite <- ln_1. apply ln_increasing; lra. }
  assert (Hexp : exp (- n * ln (1 + r)) <= exp 0).
  { destruct (Req_dec (- n * ln (1 + r)) 0) as [->|Hne]; [lra|].
    left. apply exp_increasing. nra. }
  by rewrite exp_0 in Hexp.
Qed.

(** ** The defaults of utils/constants *)

Lemma DEFAULT_INPUTS_currentMonthlyRent : currentMonthlyRent DEFAULT_INPUTS = 4400.
Proof.
  unfold DEFAULT_INPUTS, DEFAULT_PRICE. fields.
  unfold estimateCurrentRent, Math_round. cbv zeta.
  change (IZR (Int_part (1500000 * 0.035 / 12 / 100 + 0.5)))
    with (Math_floor (1500000 * 0.035 / 12 / 100 + 0.5)).
  rewrite (Math_floor_eq _ 44); lra.
Qed.

Lemma DEFAULT_INPUTS_expectedMonthlyRental : expectedMonthlyRental DEFAULT_INPUTS = 4000.
Proof.
  unfold DEFAULT_INPUTS, DEFAULT_PRICE. fields.
  unfold estimateMonthlyRental, Math_round. cbv zeta.
  change (IZR (Int_part (1500000 * 0.032 / 12 / 100 + 0.5)))
    with (Math_floor (1500000 * 0.032 / 12 / 100 + 0.5)).
  rewrite (Math_floor_eq _ 40); lra.
Qed.

(** ** Policy tables: the values the specification lists *)

Example getABSDRate_citizen_first : getABSDRate "citizen" 1 = 0.
Proof. unfold getABSDRate. js_cases. Qed.

Example getABSDRate_pr_second : getABSDRate "pr" 2 = 30.
Proof. unfold getABSDRate. js_cases. Qed.

Example getABSDRate_foreigner (propertyNumber : R) :
  getABSDRate "foreigner" propertyNumber = 60.
Proof. unfold getABSDRate. js_cases. Qed.

Example calculateCpfAccruedInterest_nothing_used (years : R) :
  calculateCpfAccruedInterest 0 years = 0.
Proof. unfold calculateCpfAccruedInterest. rewrite decide_True; [done|by left]. Qed.

Example calculateCpfAccruedInterest_no_time (cpfUsed : R) :
  calculateCpfAccruedInterest cpfUsed 0 = 0.
Proof. unfold calculateCpfAccruedInterest. rewrite decide_True; [done|by right]. Qed.

(** ** Buyer's stamp duty *)

Lemma calculateBSD_180000 : calculateBSD 180000 = 1800.
Proof. unfold_bsd. js_arith. Qed.

Lemma calculateBSD_1000000 : calculateBSD 1000000 = 24600.
Proof. unfold_bsd. js_arith. Qed.

Lemma calculateBSD_1500000 : calculateBSD 1500000 = 44600.
Proof. unfold_bsd. js_arith. Qed.

(** C1, as the code has it.  The duty is 1800 at 180000, 24600 at 1000000
    and 44600 at 1500000 (the band from 1000000 to 1500000 is charged 4%,
    that is 20000), and a band whose lower threshold the price does not
    exceed leaves the running total unchanged. *)
Theorem calculateBSD_bands :
  calculateBSD 180000 = 1800 /\
  calculateBSD 1000000 = 24600 /\
  calculateBSD 1500000 = 44600 /\
  forall price bsd : R,
    (price <= 0 -> bsd_band1 price bsd = bsd) /\
    (price <= 180000 -> bsd_band2 price bsd = bsd) /\
    (price <= 360000 -> bsd_band3 price bsd = bsd) /\
    (price <= 1000000 -> bsd_band4 price bsd = bsd) /\
    (price <= 1500000 -> bsd_band5 price bsd = bsd) /\
    (price <= 3000000 -> bsd_band6 price bsd = bsd).
Proof.
  split; [exact calculateBSD_180000|].
  split; [exact calculateBSD_1000000|].
  split; [exact calculateBSD_1500000|].
  intros price bsd.
  unfold bsd_band1, bsd_band2, bsd_band3, bsd_band4, bsd_band5, bsd_band6.
  repeat split; intros Hlow; case_decide; lra.
Qed.

(** At 1000000 the fourth band adds nothing to 24600; at 100000 the second
    adds nothing to 1000. *)
Lemma calculateBSD_bands_witness :
  bsd_band4 1000000 24600 = 24600 /\ bsd_band2 100000 1000 = 1000.
Proof.
  destruct calculateBSD_bands as (_ & _ & _ & Hbands).
  split.
  - apply (Hbands 1000000 24600). lra.
  - apply (Hbands 100000 1000). lra.
Defined.

(** C1 as stated fails: the duty on 1500000 is not 49600. *)
Lemma calculateBSD_1500000_not_49600 :
  calculateBSD 1500000 = 44600 /\ calculateBSD 1500000 <> 49600.
Proof. rewrite calculateBSD_1500000. split; [reflexivity|lra]. Qed.

(** ** Monthly loan payment *)

(** The total interest of a loan at a positive rate over a positive
    tenure is at least the principal times the smaller of 1 and a quarter
    of [monthlyRate * numPayments]. *)
Lemma total_interest_lower_bound (principal r n : R) :
  0 <= principal -> 0 < r -> 0 < n ->
  principal * Rmin (n * r / 4) 1
    <= principal * (r * Rpower (1 + r) n) / (Rpower (1 + r) n - 1) * n - principal.
Proof.
  intros Hp Hr Hn.
  destruct (growth_factor_bounds r n Hr Hn) as [Hg _].
  destruct (growth_factor_bounds r (n / 2) Hr ltac:(lra)) as [Hh Hhalf].
  assert (Hsq : Rpower (1 + r) (n / 2) * Rpower (1 + r) (n / 2) = Rpower (1 + r) n).
  { rewrite <- Rpower_plus. f_equal. lra. }
  set (g := Rpower (1 + r) n) in *. set (h := Rpower (1 + r) (n / 2)) in *.
  set (x := n * r).
  assert (Hx : 0 < x) by (unfold x; nra).
  replace (principal * (r * g) / (g - 1) * n - principal)
    with (principal * ((x * g - (g - 1)) * / (g - 1))) by (unfold x; field; lra).
  apply Rmult_le_compat_l; [exact Hp|].
  apply (Rmult_le_reg_r (g - 1)); [lra|].
  replace ((x * g - (g - 1)) * / (g - 1) * (g - 1)) with (x * g - (g - 1)) by (field; lra).
  destruct (Rle_or_lt x 2) as [Hsmall|Hbig].
  - assert (Hmin : Rmin (x / 4) 1 <= x / 4) by apply Rmin_l.
    assert (Hc : 0 <= 1 - x / 2) by lra.
    assert (Hhc : h * (1 - x / 2) <= 1).
    { replace (1 - x / 2) with (1 - r * (n / 2)) by (unfold x; lra). exact Hhalf. }
    assert (Hgc : g * ((1 - x / 2) * (1 - x / 2)) <= 1).
    { rewrite <- Hsq.
      replace (h * h * ((1 - x / 2) * (1 - x / 2)))
        with ((h * (1 - x / 2)) * (h * (1 - x / 2))) by ring.
      assert (0 <= h * (1 - x / 2)) by (apply Rmult_le_pos; lra).
      nra. }
    assert (Hkey : g * (1 - 3 * x / 4) <= 1 + x / 4).
    { assert (Hid : 1 + x / 4 - g * (1 - 3 * x / 4)
                    = (1 + x / 4) * (1 - g * ((1 - x / 2) * (1 - x / 2)))
                      + g * (x * x * x / 16)) by field.
      assert (0 <= (1 + x / 4) * (1 - g * ((1 - x / 2) * (1 - x / 2))))
        by (apply Rmult_le_pos; lra).
      assert (0 <= g * (x * x * x / 16)).
      { apply Rmult_le_pos; [lra|]. assert (0 <= x * x * x); [|lra].
        apply Rmult_le_pos; [apply Rmult_le_pos|]; lra. }
      lra. }
    assert (Rmin (x / 4) 1 * (g - 1) <= x / 4 * (g - 1))
      by (apply Rmult_le_compat_r; lra).
    lra.
  - assert (Hmin : Rmin (x / 4) 1 <= 1) by apply Rmin_r.
    assert (Rmin (x / 4) 1 * (g - 1) <= 1 * (g - 1))
      by (apply Rmult_le_compat_r; lra).
    nra.
Qed.

(** At rate zero the total interest is zero in exact arithmetic. *)
Lemma total_interest_zero_rate (principal years : R) :
  years <> 0 -> calculateMonthlyPayment principal 0 years * years * 12 - principal = 0.
Proof.
  intros Hyears. unfold calculateMonthlyPayment. case_decide as Hprin.
  - rewrite Hprin. ring.
  - rewrite decide_True by done. field. exact Hyears.
Qed.

(** On double-precision numbers it can fall below zero: 100000 / 300 is
    rounded down, and 300 payments add up to less than the principal. *)
Lemma binary64_total_interest_below_zero (Math_pow : float -> float -> float) :
  (Binary64.calculateMonthlyPayment Math_pow 100000 0 25 * 25 * 12 - 100000
   = -1.4551915228366852e-11)%float
  /\ (Binary64.calculateMonthlyPayment Math_pow 100000 0 25 * 25 * 12 - 100000 <? 0)%float
     = true.
Proof. split; vm_compute; reflexivity. Qed.

(** C2, as the code has it.  For a principal and a rate that are not
    negative and a tenure above zero, the monthly payment is not
    negative; at rate zero it is the principal divided by the number of
    months, and [calculateMonthlyPayment 500000 0 25] is [500000 / 300].
    For a rate from 0.01 to 100 percent and a tenure from 1 to 100 years
    the total interest is at least the principal times the smaller of 1
    and a quarter of [monthlyRate * numPayments], so it is not negative.
    At rate zero it is zero in exact arithmetic only: on double-precision
    numbers 100000 over 25 years has a total interest below zero. *)
Theorem monthly_payment_total_interest (principal annualRate years : R) :
  0 <= principal -> 0 <= annualRate -> 0 < years ->
  0 <= calculateMonthlyPayment principal annualRate years /\
  (annualRate = 0 ->
     calculateMonthlyPayment principal annualRate years = principal / (years * 12)) /\
  (0.01 <= annualRate <= 100 -> 1 <= years <= 100 ->
     0 <= principal * Rmin (years * 12 * (annualRate / 100 / 12) / 4) 1
       <= calculateMonthlyPayment principal annualRate years * years * 12 - principal) /\
  calculateMonthlyPayment 500000 0 25 = 500000 / 300 /\
  (forall Math_pow : float -> float -> float,
     (Binary64.calculateMonthlyPayment Math_pow 100000 0 25 * 25 * 12 - 100000 <? 0)%float
     = true).
Proof.
  intros Hp Hrate Hyears.
  split; [|split; [|split; [|split]]];
    [| | | |intros Math_pow; apply binary64_total_interest_below_zero].
  - unfold calculateMonthlyPayment. case_decide; [lra|]. case_decide.
    + apply Rmult_le_pos; [lra|]. left. apply Rinv_0_lt_compat. lra.
    + cbv zeta. set (r := annualRate / 100 / 12). set (n := years * 12).
      assert (Hr : 0 < r) by (unfold r; lra).
      assert (Hn : 0 < n) by (unfold n; lra).
      rewrite Math_pow_pos_base by lra.
      destruct (growth_factor_bounds r n Hr Hn) as [Hg _].
      apply Rmult_le_pos.
      * apply Rmult_le_pos; [lra|]. apply Rmult_le_pos; lra.
      * left. apply Rinv_0_lt_compat. lra.
  - intros Hzero. unfold calculateMonthlyPayment. case_decide as Hprin.
    + rewrite Hprin. unfold Rdiv. ring.
    + by rewrite decide_True.
  - intros [Hlow _] [_ _].
    set (r := annualRate / 100 / 12).
    assert (Hr : 0 < r) by (unfold r; lra).
    assert (Hn : 0 < years * 12) by lra.
    assert (Hquarter : 0 <= Rmin (years * 12 * r / 4) 1).
    { apply Rmin_glb; [|lra]. assert (0 <= years * 12 * r) by (apply Rmult_le_pos; lra). lra. }
    split; [apply Rmult_le_pos; [exact Hp|exact Hquarter]|].
    unfold calculateMonthlyPayment. case_decide as Hprin.
    + rewrite Hprin. lra.
    + rewrite decide_False by lra. cbv zeta. fold r.
      rewrite Math_pow_pos_base by lra.
      pose proof (total_interest_lower_bound principal r (years * 12) Hp Hr Hn) as Hbound.
      lra.
  - unfold calculateMonthlyPayment. js_cases. f_equal. lra.
Qed.

(** The default loan: 1125000 at 2.6% over 30 years. *)
Lemma monthly_payment_total_interest_witness :
  0 <= calculateMonthlyPayment 1125000 2.6 30 /\
  0 <= 1125000 * Rmin (30 * 12 * (2.6 / 100 / 12) / 4) 1
    <= calculateMonthlyPayment 1125000 2.6 30 * 30 * 12 - 1125000.
Proof.
  destruct (monthly_payment_total_interest 1125000 2.6 30) as (Hpay & _ & Hint & _ & _);
    [lra|lra|lra|].
  split; [exact Hpay|apply Hint; lra].
Defined.

(** C2 as stated fails: the tenure field takes any number, and an interest
    free loan of 120 over a tenure of -1 has the monthly payment -10. *)
Lemma monthly_payment_negative_tenure :
  calculateMonthlyPayment 120 0 (-1) = -10 /\
  ~ 0 <= calculateMonthlyPayment 120 0 (-1).
Proof.
  assert (H : calculateMonthlyPayment 120 0 (-1) = -10).
  { unfold calculateMonthlyPayment. js_cases. field. }
  split; [exact H|]. rewrite H. lra.
Qed.

(** ** Additional buyer's stamp duty *)

(** C4, as the code has it.  Both lookups return for every status and
    property number, inside the enumeration or not: a status other than
    ["citizen"] and ["pr"] gets the foreigner rate 60, a property number
    other than 1 and 2 the rate of the third property, and the levy is the
    price times that rate. *)
Theorem absd_lookup_defaults (price : R) (status : string) (propertyNumber : R) :
  exists rate : R,
    getABSDRate_call status propertyNumber = Returns rate /\
    calculateABSD_call price status propertyNumber = Returns (price * (rate / 100)) /\
    (status <> "citizen" -> status <> "pr" -> rate = 60) /\
    (propertyNumber <> 1 -> propertyNumber <> 2 ->
       (status = "citizen" -> rate = 30) /\ (status = "pr" -> rate = 35)).
Proof.
  exists (getABSDRate status propertyNumber).
  split; [reflexivity|]. split.
  - unfold calculateABSD_call, calculateABSD, getABSDRate. f_equal.
    repeat case_decide; lra.
  - unfold getABSDRate. split.
    + intros Hc Hp. repeat case_decide; congruence.
    + intros H1 H2. split; intros ->; repeat case_decide; congruence.
Qed.

Lemma absd_lookup_defaults_witness :
  exists rate : R, getABSDRate_call "alien" 7 = Returns rate /\ rate = 60.
Proof.
  destruct (absd_lookup_defaults 1000000 "alien" 7) as (rate & Hcall & _ & Hforeign & _).
  exists rate. split; [exact Hcall|].
  apply Hforeign; discriminate.
Defined.

(** C4 as stated fails: a status and a property number outside the
    enumeration get the foreigner rate, and no error. *)
Lemma absd_no_fail_fast :
  ~ enumerated "alien" 7 /\
  getABSDRate_call "alien" 7 = Returns 60 /\
  calculateABSD_call 1000000 "alien" 7 = Returns 600000 /\
  getABSDRate_call "alien" 7 <> Throws InvalidArgument /\
  calculateABSD_call 1000000 "alien" 7 <> Throws InvalidArgument.
Proof.
  split; [|split; [|split; [|split]]].
  - intros [[H|[H|H]] _]; discriminate.
  - unfold getABSDRate_call, getABSDRate.
    repeat (case_decide; try discriminate). reflexivity.
  - unfold calculateABSD_call, calculateABSD.
    repeat (case_decide; try discriminate). f_equal. lra.
  - discriminate.
  - discriminate.
Qed.

(** ** Seller's stamp duty *)

(** C5.  The comparisons are strict: three years pay nothing, 2.999 years
    4%, 0.999 years 12%, and exactly one and two years fall into the lower
    bands of 8% and 4%. *)
Theorem calculateSSD_boundaries (price : R) :
  calculateSSD price 3 = 0 /\
  calculateSSD price 2.999 = price * 0.04 /\
  calculateSSD price 0.999 = price * 0.12 /\
  calculateSSD price 1 = price * 0.08 /\
  calculateSSD price 2 = price * 0.04.
Proof. unfold calculateSSD. repeat split; js_arith. Qed.

Lemma calculateSSD_linear (price yearsHeld : R) :
  calculateSSD price yearsHeld = price * calculateSSD 1 yearsHeld.
Proof. unfold calculateSSD. js_arith. Qed.

(** ** Remaining loan *)

(** C7.  With a loan rate of exactly zero and a holding period shorter
    than the tenure, the remaining loan is reported as zero. *)
Theorem remainingLoan_zero_rate (inputs : PropertyInputs) :
  loanInterestRate inputs = 0 ->
  holdingPeriodYears inputs < loanTenureYears inputs ->
  remainingLoan inputs = 0.
Proof.
  intros Hrate _. unfold remainingLoan, monthlyRate. rewrite Hrate.
  rewrite (bool_decide_eq_false_2 (0 / 100 / 12 > 0)) by lra.
  by rewrite andb_false_r.
Qed.

(** The default purchase with an interest-free loan: 1125000 borrowed over
    30 years, 25 years of payments still to come after five years, and a
    remaining loan of zero. *)
Lemma remainingLoan_zero_rate_witness :
  loanAmount zero_rate_inputs = 1125000 /\
  paymentsRemaining zero_rate_inputs = 300 /\
  remainingLoan zero_rate_inputs = 0.
Proof.
  split; [|split].
  - unfold loanAmount, zero_rate_inputs, DEFAULT_PRICE. fields. lra.
  - unfold paymentsRemaining, zero_rate_inputs. fields. lra.
  - apply remainingLoan_zero_rate.
    + reflexivity.
    + unfold zero_rate_inputs. fields. lra.
Defined.

(** ** Maximum affordable price *)

Lemma calculateMaxAffordablePrice_no_budget (cash cpf income debt lp rate tenure : R) :
  income * 0.55 - debt <= 0 ->
  calculateMaxAffordablePrice cash cpf income debt lp rate tenure = 0.
Proof. intros Hm. unfold calculateMaxAffordablePrice. cbv zeta. by rewrite decide_True. Qed.

Lemma calculateMaxAffordablePrice_unfold (cash cpf income debt lp rate tenure : R) :
  0 < lp ->
  calculateMaxAffordablePrice cash cpf income debt lp rate tenure
  = if decide (income * 0.55 - debt <= 0) then 0
    else Math_floor (Math_min (maxFromCashCpf cash cpf lp)
                              (maxFromTDSR income debt lp rate tenure) / 50000) * 50000.
Proof.
  intros Hlp. unfold calculateMaxAffordablePrice, JS_div. cbv zeta.
  case_decide; [reflexivity|].
  rewrite decide_False by (intros [Hzero _]; lra). reflexivity.
Qed.

(** Without a loan the TDSR bound is [Infinity] and the cash bound
    decides. *)
Lemma calculateMaxAffordablePrice_no_loan (cash cpf income debt rate tenure : R) :
  0 < income * 0.55 - debt -> 0 <= rate -> 0 < tenure ->
  calculateMaxAffordablePrice cash cpf income debt 0 rate tenure
  = Math_floor (maxFromCashCpf cash cpf 0 / 50000) * 50000.
Proof.
  intros Hm Hrate Hten. unfold calculateMaxAffordablePrice, JS_div. cbv zeta.
  rewrite decide_False by lra.
  rewrite decide_True; [reflexivity|].
  split; [lra|].
  case_decide as Hr.
  - rewrite Math_pow_pos_base by lra. rewrite Rpower_Ropp.
    destruct (growth_factor_bounds (rate / 100 / 12) (tenure * 12)) as [Hg _]; [lra|lra|].
    set (g := Rpower (1 + rate / 100 / 12) (tenure * 12)) in *.
    assert (Hinv : / g < 1).
    { rewrite <- Rinv_1. apply Rinv_lt_contravar; lra. }
    apply Rlt_gt. apply Rmult_lt_0_compat; [|apply Rinv_0_lt_compat; lra].
    apply Rmult_lt_0_compat; lra.
  - apply Rlt_gt. apply Rmult_lt_0_compat; lra.
Qed.

Lemma maxFromCashCpf_nonneg (cash cpf lp : R) :
  0 <= cash -> 0 <= cpf -> lp < 105 -> 0 <= maxFromCashCpf cash cpf lp.
Proof.
  intros Hcash Hcpf Hlp. unfold maxFromCashCpf.
  apply Rmult_le_pos; [lra|]. left. apply Rinv_0_lt_compat. lra.
Qed.

Lemma maxFromTDSR_nonneg (income debt lp rate tenure : R) :
  0 < income * 0.55 - debt -> 0 <= rate -> 0 <= tenure -> 0 < lp ->
  0 <= maxFromTDSR income debt lp rate tenure.
Proof.
  intros Hm Hrate Hten Hlp. unfold maxFromTDSR. cbv zeta.
  apply Rmult_le_pos; [|left; apply Rinv_0_lt_compat; lra].
  case_decide as Hr.
  - rewrite Math_pow_pos_base by lra.
    destruct (discount_factor_le_1 (rate / 100 / 12) (tenure * 12)) as [_ Hd]; [lra|lra|].
    apply Rmult_le_pos; [|left; apply Rinv_0_lt_compat; lra].
    apply Rmult_le_pos; lra.
  - apply Rmult_le_pos; lra.
Qed.

(** Without a loan the model and the program agree: the purchase is bound
    by cash alone, 500000 / 1.05 rounded down. *)
Lemma maxAffordablePrice_without_loan :
  calculateMaxAffordablePrice 500000 0 15000 0 0 0 30 = 450000.
Proof.
  rewrite calculateMaxAffordablePrice_no_loan by lra.
  unfold maxFromCashCpf. rewrite (Math_floor_eq _ 9); lra.
Qed.

(** *** On double-precision numbers *)

(** The same purchase on double-precision numbers: the TDSR bound is
    [Infinity] and the result is 450000. *)
Lemma binary64_maxAffordablePrice_without_loan (Math_pow : float -> float -> float) :
  Binary64.calculateMaxAffordablePrice Math_pow 500000 0 15000 0 0 0 30 = 450000%float.
Proof. vm_compute. reflexivity. Qed.

(** A bound that is a whole number of steps in exact arithmetic can be
    computed just under it: 550000 / (0.5 + 0.05) is 999999.99999999988 in
    double precision, and the result is a whole step lower, 950000, where
    exact arithmetic gives 1000000. *)
Lemma binary64_maxAffordablePrice_loses_a_step (Math_pow : float -> float -> float) :
  Binary64.calculateMaxAffordablePrice Math_pow 550000 0 15000 0 50 0 30 = 950000%float.
Proof. vm_compute. reflexivity. Qed.

Lemma maxAffordablePrice_exact_keeps_the_step :
  calculateMaxAffordablePrice 550000 0 15000 0 50 0 30 = 1000000.
Proof.
  rewrite calculateMaxAffordablePrice_unfold by lra. rewrite decide_False by lra.
  unfold maxFromCashCpf, maxFromTDSR. cbv zeta. rewrite decide_False by lra.
  rewrite (Math_floor_eq _ 20).
  - lra.
  - unfold Math_min, Rmin. destruct (Rle_dec _ _) as [Hle|Hgt]; lra.
Qed.

(** With 55% of the income equal to the debt, 7000 * 0.55 is computed just
    above 3850: the budget is positive, and without a loan the result is
    the cash bound, where exact arithmetic returns 0. *)
Lemma binary64_maxAffordablePrice_budget_rounds_up (Math_pow : float -> float -> float) :
  Binary64.calculateMaxAffordablePrice Math_pow 500000 0 7000 3850 0 0 30 = 450000%float
  /\ Binary64.calculateMaxAffordablePrice Math_pow 500000 0 7000 3850 75 0 30 = 0%float.
Proof. split; vm_compute; reflexivity. Qed.

(** C8, as the code has it.  For inputs that are not negative and a loan
    percentage from 0 to below 105 (with a tenure above zero where the
    loan percentage is 0), the result is a multiple of 50000 that is not
    negative.  It is 0 when 55% of the income is below the existing debt,
    and also when it equals the debt and the loan percentage is above 0.
    When 55% of the income exceeds the debt, the result is at most the
    cash and CPF bound and at most 50000 below the smaller bound; with a
    loan percentage above 0 it is at most the TDSR bound too, and with a
    loan percentage of 0 the cash and CPF bound alone decides.  On
    double-precision numbers a bound of exactly 1000000 is computed just
    under it and the result is 950000, and a purchase without a loan is
    bound by cash alone. *)
Theorem maxAffordablePrice_rounds_down (cash cpf income debt lp rate tenure : R) :
  0 <= cash -> 0 <= cpf -> 0 <= income -> 0 <= debt -> 0 <= rate -> 0 <= tenure ->
  0 <= lp -> lp < 105 -> 0 < lp \/ 0 < tenure ->
  let result := calculateMaxAffordablePrice cash cpf income debt lp rate tenure in
  let fromCashCpf := maxFromCashCpf cash cpf lp in
  let fromTDSR := maxFromTDSR income debt lp rate tenure in
  (exists k : Z, (0 <= k)%Z /\ result = IZR k * 50000) /\
  (income * 0.55 - debt < 0 -> result = 0) /\
  (income * 0.55 - debt <= 0 -> 0 < lp -> result = 0) /\
  (income * 0.55 - debt > 0 ->
     result <= fromCashCpf /\
     (0 < lp -> result <= fromTDSR /\ Math_min fromCashCpf fromTDSR - 50000 <= result) /\
     (lp = 0 -> fromCashCpf - 50000 <= result)) /\
  (forall Math_pow : float -> float -> float,
     Binary64.calculateMaxAffordablePrice Math_pow 550000 0 15000 0 50 0 30 = 950000%float /\
     Binary64.calculateMaxAffordablePrice Math_pow 500000 0 15000 0 0 0 30 = 450000%float).
Proof.
  intros Hcash Hcpf Hinc Hdebt Hrate Hten Hlp0 Hlp Hloan result fromCashCpf fromTDSR.
  assert (Hcashpos : 0 <= fromCashCpf) by (apply maxFromCashCpf_nonneg; lra).
  pose proof (Math_floor_bounds (fromCashCpf / 50000)) as Hflc.
  pose proof (Math_floor_bounds (Math_min fromCashCpf fromTDSR / 50000)) as Hfl.
  pose proof (Rmin_l fromCashCpf fromTDSR) as Hminl.
  pose proof (Rmin_r fromCashCpf fromTDSR) as Hminr.
  assert (Hcases : income * 0.55 - debt <= 0 /\ result = 0
                   \/ 0 < income * 0.55 - debt /\ 0 < lp
                      /\ result = Math_floor (Math_min fromCashCpf fromTDSR / 50000) * 50000
                   \/ 0 < income * 0.55 - debt /\ lp = 0
                      /\ result = Math_floor (fromCashCpf / 50000) * 50000).
  { destruct (Rle_or_lt (income * 0.55 - debt) 0) as [Hm|Hm].
    - left. split; [exact Hm|]. by apply calculateMaxAffordablePrice_no_budget.
    - right. destruct (Rle_lt_or_eq_dec 0 lp Hlp0) as [Hpos|Hzero].
      + left. split; [exact Hm|]. split; [exact Hpos|].
        subst result. rewrite calculateMaxAffordablePrice_unfold by exact Hpos.
        by rewrite decide_False by lra.
      + right. split; [exact Hm|]. split; [by symmetry|].
        subst result fromCashCpf. rewrite <- Hzero.
        apply calculateMaxAffordablePrice_no_loan; [exact Hm|exact Hrate|].
        destruct Hloan as [Hl|Ht]; [lra|exact Ht]. }
  unfold Math_min in *.
  split; [|split; [|split; [|split]]];
    [| | | |intros Math_pow; split;
             [apply binary64_maxAffordablePrice_loses_a_step
             |apply binary64_maxAffordablePrice_without_loan]].
  - destruct Hcases as [[_ ->]|[(Hm & Hpos & ->)|(Hm & Hzero & ->)]].
    + exists 0%Z. split; [lia|lra].
    + exists (Int_part (Rmin fromCashCpf fromTDSR / 50000)).
      split; [|reflexivity]. apply Int_part_nonneg.
      assert (0 <= fromTDSR) by (apply maxFromTDSR_nonneg; lra).
      assert (0 <= Rmin fromCashCpf fromTDSR); [|lra].
      unfold Rmin. destruct (Rle_dec _ _); lra.
    + exists (Int_part (fromCashCpf / 50000)).
      split; [|reflexivity]. apply Int_part_nonneg. lra.
  - intros Hm. destruct Hcases as [[_ ->]|[(Hm' & _)|(Hm' & _)]]; [reflexivity|lra|lra].
  - intros Hm Hpos. destruct Hcases as [[_ ->]|[(Hm' & _)|(Hm' & _)]]; [reflexivity|lra|lra].
  - intros Hm. destruct Hcases as [[Hm' _]|[(_ & Hpos & ->)|(_ & Hzero & ->)]]; [lra| |].
    + split; [lra|]. split; [intros _; lra|intros Hz; lra].
    + split; [lra|]. split; [intros Hpos; lra|intros _; lra].
Qed.

(** A purchase without a loan: the cash bound 500000 / 1.05 decides. *)
Lemma maxAffordablePrice_rounds_down_witness :
  (exists k : Z, (0 <= k)%Z /\
     calculateMaxAffordablePrice 500000 0 15000 0 0 2.6 30 = IZR k * 50000) /\
  calculateMaxAffordablePrice 500000 0 15000 0 0 2.6 30 <= maxFromCashCpf 500000 0 0 /\
  maxFromCashCpf 500000 0 0 - 50000 <= calculateMaxAffordablePrice 500000 0 15000 0 0 2.6 30.
Proof.
  destruct (maxAffordablePrice_rounds_down 500000 0 15000 0 0 2.6 30)
    as (Hmult & _ & _ & Hbounds & _); [lra|lra|lra|lra|lra|lra|lra|lra|right; lra|].
  destruct Hbounds as (Hcash & _ & Hlow); [lra|].
  split; [exact Hmult|]. split; [exact Hcash|apply Hlow; reflexivity].
Defined.

(** C8 as stated fails: every argument is non-negative, the loan
    percentage is 200, and the result is negative. *)
Lemma maxAffordablePrice_negative :
  calculateMaxAffordablePrice 100000 0 10000 0 200 0 30 = -150000.
Proof.
  rewrite calculateMaxAffordablePrice_unfold by lra. rewrite decide_False by lra.
  unfold maxFromCashCpf, maxFromTDSR. cbv zeta. rewrite decide_False by lra.
  rewrite (Math_floor_eq _ (-3)).
  - lra.
  - unfold Math_min, Rmin. destruct (Rle_dec _ _) as [Hle|Hgt]; [lra|].
    exfalso. apply Hgt. lra.
Qed.

(** ** CPF used for the downpayment *)

(** C10.  With a CPF balance that is not negative, the CPF used for the
    downpayment lies between zero and the balance, so the third conjunct
    of [canAfford] holds and [canAfford] is the conjunction of the cash
    check and the TDSR check. *)
Theorem cpf_conjunct_always_holds (inputs : PropertyInputs) :
  0 <= cpfOaBalance inputs ->
  0 <= cpfUsedForDownpayment inputs <= cpfOaBalance inputs /\
  cpfUsedForDownpayment inputs
  = (if useCpfForDownpayment inputs
     then Math_max 0 (Math_min (cpfOaBalance inputs)
                               (downPayment inputs - minCashDownpayment inputs))
     else 0) /\
  (if useCpfForDownpayment inputs
   then bool_decide (cpfOaBalance inputs >= cpfUsedForDownpayment inputs)
   else true) = true /\
  canAfford inputs
  = bool_decide (cashAvailable inputs >= cashNeeded inputs) && tdsrOk inputs.
Proof.
  intros Hcpf.
  assert (Hbound : 0 <= cpfUsedForDownpayment inputs <= cpfOaBalance inputs).
  { unfold cpfUsedForDownpayment, maxCpfForDownpayment.
    destruct (useCpfForDownpayment inputs); js_minmax; lra. }
  assert (Hthird : (if useCpfForDownpayment inputs
     then bool_decide (cpfOaBalance inputs >= cpfUsedForDownpayment inputs)
     else true) = true).
  { destruct (useCpfForDownpayment inputs); [|done].
    apply bool_decide_eq_true_2. lra. }
  split; [exact Hbound|]. split; [|split; [exact Hthird|]].
  - unfold cpfUsedForDownpayment, maxCpfForDownpayment.
    destruct (useCpfForDownpayment inputs); [done|].
    unfold Math_max, Rmax. destruct (Rle_dec 0 0); lra.
  - unfold canAfford. rewrite Hthird. by rewrite andb_true_r.
Qed.

Lemma cpf_conjunct_always_holds_witness :
  0 <= cpfUsedForDownpayment DEFAULT_INPUTS <= cpfOaBalance DEFAULT_INPUTS /\
  canAfford DEFAULT_INPUTS
  = bool_decide (cashAvailable DEFAULT_INPUTS >= cashNeeded DEFAULT_INPUTS)
    && tdsrOk DEFAULT_INPUTS.
Proof.
  destruct (cpf_conjunct_always_holds DEFAULT_INPUTS) as (Hbound & _ & _ & Hafford).
  - unfold DEFAULT_INPUTS. fields. lra.
  - split; [exact Hbound|exact Hafford].
Defined.

(** ** Appreciation, sale value and profit *)

(** [netProfit] as a function of the sale value: nothing else in it reads
    [annualAppreciation]. *)
Lemma netProfit_in_futureValue (inputs : PropertyInputs) :
  netProfit inputs
  = futureValue inputs
      * (1 - calculateSSD 1 (holdingPeriodYears inputs) - agentFeePercent inputs / 100)
    - sellingLegalFees - earlyRepaymentPenalty inputs - remainingLoan inputs
    + fvPositiveCashflows inputs
    + (if isRentingOut inputs then 0 else totalSavedRent inputs)
    - totalInvestment inputs - cpfOpportunityCost inputs.
Proof.
  unfold netProfit, totalReturn, salesIncome, sellingCosts, ssd, agentCommission.
  rewrite calculateSSD_linear. lra.
Qed.

Lemma futureValue_with_annualAppreciation (inputs : PropertyInputs) (a : R) :
  futureValue (with_annualAppreciation inputs a)
  = price inputs * Math_pow (1 + a / 100) (holdingPeriodYears inputs).
Proof. reflexivity. Qed.

Lemma netProfit_with_annualAppreciation (inputs : PropertyInputs) (a : R) :
  netProfit (with_annualAppreciation inputs a)
  = futureValue (with_annualAppreciation inputs a)
      * (1 - calculateSSD 1 (holdingPeriodYears inputs) - agentFeePercent inputs / 100)
    - sellingLegalFees - earlyRepaymentPenalty inputs - remainingLoan inputs
    + fvPositiveCashflows inputs
    + (if isRentingOut inputs then 0 else totalSavedRent inputs)
    - totalInvestment inputs - cpfOpportunityCost inputs.
Proof. rewrite netProfit_in_futureValue. reflexivity. Qed.

Lemma futureValue_increasing (inputs : PropertyInputs) (a1 a2 : R) :
  price inputs > 0 -> holdingPeriodYears inputs >= 1 ->
  -100 <= a1 -> a1 < a2 ->
  futureValue (with_annualAppreciation inputs a1)
    < futureValue (with_annualAppreciation inputs a2).
Proof.
  intros Hprice Hh Ha1 Hlt.
  rewrite !futureValue_with_annualAppreciation.
  apply Rmult_lt_compat_l; [lra|].
  rewrite (Math_pow_pos_base (1 + a2 / 100)) by lra.
  destruct (Req_dec a1 (-100)) as [->|Hne].
  - replace (1 + -100 / 100) with 0 by lra.
    rewrite Math_pow_0_l by lra. apply exp_pos.
  - rewrite Math_pow_pos_base by lra.
    apply Rlt_Rpower_l; lra.
Qed.

(** C9, as the code has it.  Between two runs that differ only in
    [annualAppreciation], with a positive price, a holding period of at
    least one year, rates from -100 upwards, and an agent commission and
    seller's duty that together take at most the whole sale value, in
    finite arithmetic: the higher rate gives a strictly higher
    [futureValue] and a [netProfit] that is not lower. *)
Theorem appreciation_monotone (inputs : PropertyInputs) (a1 a2 : R) :
  finite_arithmetic inputs ->
  price inputs > 0 ->
  holdingPeriodYears inputs >= 1 ->
  -100 <= a1 -> a1 < a2 ->
  agentFeePercent inputs / 100 + calculateSSD 1 (holdingPeriodYears inputs) <= 1 ->
  futureValue (with_annualAppreciation inputs a1)
    < futureValue (with_annualAppreciation inputs a2) /\
  netProfit (with_annualAppreciation inputs a1)
    <= netProfit (with_annualAppreciation inputs a2).
Proof.
  intros _ Hprice Hh Ha1 Hlt Hfee.
  pose proof (futureValue_increasing inputs a1 a2 Hprice Hh Ha1 Hlt) as Hfv.
  split; [exact Hfv|].
  rewrite !netProfit_with_annualAppreciation. nra.
Qed.

(** The default inputs at 3% and at 4% a year. *)
Lemma appreciation_monotone_witness :
  futureValue (with_annualAppreciation DEFAULT_INPUTS 3)
    < futureValue (with_annualAppreciation DEFAULT_INPUTS 4) /\
  netProfit (with_annualAppreciation DEFAULT_INPUTS 3)
    <= netProfit (with_annualAppreciation DEFAULT_INPUTS 4).
Proof.
  apply appreciation_monotone.
  - unfold finite_arithmetic, DEFAULT_INPUTS. fields. lra.
  - unfold DEFAULT_INPUTS, DEFAULT_PRICE. fields. lra.
  - unfold DEFAULT_INPUTS. fields. lra.
  - lra.
  - lra.
  - unfold DEFAULT_INPUTS, calculateSSD. fields. js_arith.
Defined.

(** C9 as stated fails: over two years, raising the appreciation from
    -300 to -200 lowers the sale value of the default property from
    6000000 to 1500000. *)
Lemma appreciation_not_monotone :
  valid_inputs two_year_inputs /\
  finite_arithmetic two_year_inputs /\
  price two_year_inputs > 0 /\
  holdingPeriodYears two_year_inputs >= 1 /\
  -300 < -200 /\
  futureValue (with_annualAppreciation two_year_inputs (-300)) = 6000000 /\
  futureValue (with_annualAppreciation two_year_inputs (-200)) = 1500000 /\
  ~ futureValue (with_annualAppreciation two_year_inputs (-300))
    < futureValue (with_annualAppreciation two_year_inputs (-200)).
Proof.
  assert (H300 : futureValue (with_annualAppreciation two_year_inputs (-300)) = 6000000).
  { rewrite futureValue_with_annualAppreciation.
    unfold two_year_inputs, DEFAULT_PRICE. fields.
    replace (1 + -300 / 100) with (-2) by lra.
    rewrite Math_pow_neg_base_2 by lra. lra. }
  assert (H200 : futureValue (with_annualAppreciation two_year_inputs (-200)) = 1500000).
  { rewrite futureValue_with_annualAppreciation.
    unfold two_year_inputs, DEFAULT_PRICE. fields.
    replace (1 + -200 / 100) with (-1) by lra.
    rewrite Math_pow_neg_base_2 by lra. lra. }
  rewrite H300, H200.
  unfold valid_inputs, finite_arithmetic, TAX_BRACKETS, two_year_inputs, DEFAULT_PRICE.
  fields. cbn [In].
  repeat split; lra.
Qed.

(** The bound on commission and duty is needed as well: when together they
    take more than the sale value, a higher appreciation lowers the profit. *)
Lemma appreciation_lowers_profit (inputs : PropertyInputs) (a1 a2 : R) :
  price inputs > 0 ->
  holdingPeriodYears inputs >= 1 ->
  -100 <= a1 -> a1 < a2 ->
  agentFeePercent inputs / 100 + calculateSSD 1 (holdingPeriodYears inputs) > 1 ->
  netProfit (with_annualAppreciation inputs a2)
    < netProfit (with_annualAppreciation inputs a1).
Proof.
  intros Hprice Hh Ha1 Hlt Hfee.
  pose proof (futureValue_increasing inputs a1 a2 Hprice Hh Ha1 Hlt) as Hfv.
  rewrite !netProfit_with_annualAppreciation. nra.
Qed.

(** ** Break-even price *)

(** The general relation between [netProfit] and [breakEvenPrice]. *)
Lemma netProfit_vs_breakEvenPrice (inputs : PropertyInputs) :
  netProfit inputs
  = (futureValue inputs - breakEvenPrice inputs)
    + (fvPositiveCashflows inputs - pvNegativeCashflows inputs
       - (totalIncomeFromProperty inputs - holdingCosts inputs
          - totalRentalTax inputs - totalLoanPayments inputs))
    + (if isRentingOut inputs then 0 else totalSavedRent inputs)
    - cpfOpportunityCost inputs.
Proof.
  unfold netProfit, totalReturn, salesIncome, totalInvestment, totalInitialExpense,
    breakEvenPrice, interestDuringHolding, downPayment.
  lra.
Qed.

(** The cashflow loop leaves through its guard: with [cashflow_fuel] turns
    allowed it has run to its end, and more turns change nothing. *)
Lemma cashflow_loop_fuel_enough (inputs : PropertyInputs) (fuel extra : nat)
    (year pv fv : R) :
  holdingPeriodYears inputs < year + INR fuel ->
  cashflow_loop inputs (fuel + extra) year pv fv = cashflow_loop inputs fuel year pv fv.
Proof.
  revert year pv fv. induction fuel as [|fuel IH]; intros year pv fv Hend.
  - simpl in Hend. destruct extra as [|extra]; [reflexivity|].
    cbn [Nat.add cashflow_loop]. rewrite decide_False by lra. reflexivity.
  - cbn [Nat.add cashflow_loop]. case_decide; [|reflexivity].
    apply IH. rewrite S_INR in Hend. lra.
Qed.

Lemma cashflow_fuel_enough (inputs : PropertyInputs) (extra : nat) :
  cashflow_loop inputs (cashflow_fuel inputs + extra) 1 0 0
  = (pvCashflows inputs, fvCashflows inputs).
Proof.
  rewrite cashflow_loop_fuel_enough.
  - unfold pvCashflows, fvCashflows. by destruct (cashflow_loop _ _ _ _ _).
  - unfold cashflow_fuel.
    destruct (archimed (holdingPeriodYears inputs)) as [Hup _].
    assert (IZR (up (holdingPeriodYears inputs))
            <= INR (Z.to_nat (up (holdingPeriodYears inputs)))).
    { rewrite INR_IZR_INZ. apply IZR_le. lia. }
    lra.
Qed.

Section UndiscountedCashflows.

Variable inputs : PropertyInputs.
Variable n : nat.
Hypothesis Hrate : prevailingInterestRate inputs = 0.
Hypothesis Hyears : holdingPeriodYears inputs = INR n.

(** From year [k + 1] on, the loop adds the annual cashflow once for
    each of the [n - k] years left, and leaves through its guard. *)
Lemma cashflow_loop_undiscounted (fuel k : nat) (pv fv : R) :
  (k <= n)%nat -> (n - k <= fuel)%nat ->
  cashflow_loop inputs fuel (INR k + 1) pv fv
  = (pv + INR (n - k) * annualNetCashflow inputs,
     fv + INR (n - k) * annualNetCashflow inputs).
Proof.
  revert k pv fv. induction fuel as [|fuel IH]; intros k pv fv Hk Hfuel.
  - replace (n - k)%nat with 0%nat by lia. simpl. f_equal; lra.
  - cbn [cashflow_loop]. rewrite Hyears. case_decide as Hguard.
    + rewrite <- S_INR in Hguard. apply INR_le in Hguard.
      rewrite <- S_INR. rewrite IH by lia.
      unfold discountFactor. rewrite Hrate.
      replace (1 / (1 + 0 / 100)) with 1 by lra.
      replace (1 + 0 / 100) with 1 by lra.
      rewrite !Math_pow_1_l.
      replace (n - k)%nat with (S (n - S k)) by lia.
      rewrite (S_INR (n - S k)). f_equal; lra.
    + assert (n <= k)%nat.
      { apply Nat.nlt_ge. intros Hlt. apply Hguard.
        rewrite <- S_INR. apply le_INR. lia. }
      replace (n - k)%nat with 0%nat by lia. simpl. f_equal; lra.
Qed.

Lemma cashflows_undiscounted :
  pvCashflows inputs = holdingPeriodYears inputs * annualNetCashflow inputs /\
  fvCashflows inputs = holdingPeriodYears inputs * annualNetCashflow inputs.
Proof.
  pose proof (cashflow_loop_undiscounted (Z.to_nat (Z.of_nat n + 1)) 0 0 0) as Hloop.
  rewrite Nat.sub_0_r in Hloop. change (INR 0) with 0 in Hloop.
  replace (0 + 1) with 1 in Hloop by lra.
  unfold pvCashflows, fvCashflows, cashflow_fuel.
  rewrite Hyears, up_INR, Hloop by lia.
  simpl. split; lra.
Qed.

Lemma folded_cashflows_undiscounted :
  fvPositiveCashflows inputs - pvNegativeCashflows inputs
  = holdingPeriodYears inputs * annualNetCashflow inputs.
Proof.
  unfold fvPositiveCashflows, pvNegativeCashflows, Math_abs.
  destruct cashflows_undiscounted as [-> ->].
  set (x := holdingPeriodYears inputs * annualNetCashflow inputs).
  repeat case_decide; try lra; rewrite Rabs_left by lra; lra.
Qed.

End UndiscountedCashflows.

Lemma undiscounted_totals (inputs : PropertyInputs) :
  holdingPeriodYears inputs <= loanTenureYears inputs ->
  totalIncomeFromProperty inputs - holdingCosts inputs
    - totalRentalTax inputs - totalLoanPayments inputs
  = holdingPeriodYears inputs * annualNetCashflow inputs.
Proof.
  intros Hten.
  unfold totalIncomeFromProperty, holdingCosts, totalRentalTax, totalLoanPayments,
    annualNetCashflow, Math_min.
  rewrite Rmin_left by lra. lra.
Qed.

Lemma no_cpf_no_accrued_interest (inputs : PropertyInputs) :
  useCpfForDownpayment inputs = false -> useCpfForMonthly inputs = false ->
  cpfOpportunityCost inputs = 0.
Proof.
  intros Hdown Hmonthly.
  unfold cpfOpportunityCost, cpfAccruedInterest, cpfUsedForDownpayment,
    maxCpfForDownpayment, totalCpfForMonthly, monthlyFromCpf, calculateCpfAccruedInterest.
  rewrite Hdown, Hmonthly.
  rewrite !decide_True; [lra| |].
  - left. lra.
  - left. unfold Math_max, Rmax. destruct (Rle_dec 0 0); lra.
Qed.

(** Without discounting, without CPF and within the loan tenure, the
    profit is the distance of the sale value from the break-even price,
    plus the saved rent, which an own-stay run counts a second time. *)
Lemma netProfit_undiscounted (inputs : PropertyInputs) (n : nat) :
  prevailingInterestRate inputs = 0 ->
  holdingPeriodYears inputs = INR n ->
  holdingPeriodYears inputs <= loanTenureYears inputs ->
  useCpfForDownpayment inputs = false -> useCpfForMonthly inputs = false ->
  netProfit inputs
  = futureValue inputs - breakEvenPrice inputs
    + (if isRentingOut inputs then 0 else totalSavedRent inputs).
Proof.
  intros Hrate Hyears Hten Hdown Hmonthly.
  rewrite netProfit_vs_breakEvenPrice.
  rewrite (folded_cashflows_undiscounted inputs n Hrate Hyears).
  rewrite undiscounted_totals by done.
  rewrite no_cpf_no_accrued_interest by done.
  lra.
Qed.

(** C3, as the code has it.  [breakEvenPrice] is the sale value at which
    [netProfit] is zero when nothing separates the undiscounted sum it is
    computed as from the profit: the property is rented out, no CPF is
    used, the prevailing rate is zero, and the holding period is a whole
    number of years within the loan tenure, in finite arithmetic.  (The
    general relation is [netProfit_vs_breakEvenPrice].) *)
Theorem breakEvenPrice_zero_profit (inputs : PropertyInputs) :
  finite_arithmetic inputs ->
  isRentingOut inputs = true ->
  useCpfForDownpayment inputs = false -> useCpfForMonthly inputs = false ->
  prevailingInterestRate inputs = 0 ->
  (exists n : nat, holdingPeriodYears inputs = INR n) ->
  holdingPeriodYears inputs <= loanTenureYears inputs ->
  futureValue inputs = breakEvenPrice inputs ->
  netProfit inputs = 0.
Proof.
  intros _ Hrent Hdown Hmonthly Hrate [n Hyears] Hten Heven.
  rewrite (netProfit_undiscounted inputs n) by done.
  rewrite Hrent, Heven. lra.
Qed.

(** The engine on [cash_purchase]. *)
Section CashPurchase.

Variable rentingOut : bool.
Variable renovation : R.
Local Abbreviation cp := (cash_purchase rentingOut renovation).

Lemma cp_totalUpfrontCosts : totalUpfrontCosts cp = 27600 + renovation.
Proof.
  unfold totalUpfrontCosts, totalStampDuty, bsd, absd, legalFees, valuationFee,
    stampDutyOnMortgage, cash_purchase. fields.
  rewrite calculateBSD_1000000. unfold calculateABSD, calculateLegalFees. js_arith.
Qed.

Lemma cp_monthlyPayment : monthlyPayment cp = 0.
Proof.
  unfold monthlyPayment, loanAmount, calculateMonthlyPayment, cash_purchase. fields.
  rewrite decide_True by lra. reflexivity.
Qed.

Lemma cp_remainingLoan : remainingLoan cp = 0.
Proof.
  unfold remainingLoan, monthlyRate, cash_purchase. fields.
  rewrite (bool_decide_eq_false_2 (0 / 100 / 12 > 0)) by lra.
  by rewrite andb_false_r.
Qed.

Lemma cp_futureValue : futureValue cp = 1000000.
Proof.
  unfold futureValue, cash_purchase. fields.
  replace (1 + 0 / 100) with 1 by lra. rewrite Math_pow_1_l. lra.
Qed.

Lemma cp_annualPropertyTax :
  annualPropertyTax cp = if rentingOut then 7440 else 2280.
Proof.
  unfold annualPropertyTax, annualValue, calculatePropertyTax, cash_purchase. fields.
  destruct rentingOut; cbn [negb]; js_arith.
Qed.

Lemma cp_annualMaintenance : annualMaintenance cp = 13950.
Proof.
  unfold annualMaintenance, annualCondoFees, annualRepairs, annualInsurance,
    fireInsurance, homeInsurance, cash_purchase. fields. lra.
Qed.

Lemma cp_rentalTaxes : annualRentalTax cp + annualRoomTax cp = 0.
Proof.
  unfold annualRentalTax, annualRoomTax, calculateRentalIncomeTax, cash_purchase. fields.
  rewrite andb_false_r. destruct rentingOut; lra.
Qed.

Lemma cp_annualIncomeFromProperty :
  annualIncomeFromProperty cp = if rentingOut then 48000 else 52800.
Proof.
  unfold annualIncomeFromProperty, effectiveAnnualRental, annualRentalIncome,
    monthlyRentalIncome, vacancyLoss, annualSavedRent, monthlySavedRent,
    annualRoomIncome, monthlyRoomIncome, cash_purchase. fields.
  rewrite andb_false_r. destruct rentingOut; cbn [negb]; lra.
Qed.

Lemma cp_sellingCosts : sellingCosts cp = 2500.
Proof.
  unfold sellingCosts, ssd, agentCommission, sellingLegalFees, earlyRepaymentPenalty.
  rewrite cp_remainingLoan.
  unfold calculateSSD, cash_purchase. fields. js_arith.
Qed.

Lemma cp_breakEvenPrice :
  breakEvenPrice cp
  = 1000000 + renovation - (if rentingOut then 49730 else 79610).
Proof.
  unfold breakEvenPrice, holdingCosts, interestDuringHolding, totalLoanPayments,
    annualLoanRepayment, totalRentalTax, totalIncomeFromProperty.
  rewrite cp_totalUpfrontCosts, cp_annualPropertyTax, cp_annualMaintenance,
    cp_monthlyPayment, cp_remainingLoan, cp_sellingCosts, cp_rentalTaxes,
    cp_annualIncomeFromProperty.
  unfold loanAmount, cash_purchase. fields.
  destruct rentingOut; lra.
Qed.

Lemma cp_totalSavedRent :
  totalSavedRent cp = if rentingOut then 0 else 158400.
Proof.
  unfold totalSavedRent, annualSavedRent, monthlySavedRent, cash_purchase. fields.
  destruct rentingOut; cbn [negb]; lra.
Qed.

Lemma cp_netProfit :
  netProfit cp = futureValue cp - breakEvenPrice cp + totalSavedRent cp.
Proof.
  rewrite (netProfit_undiscounted cp 3).
  - rewrite cp_totalSavedRent. unfold cash_purchase. fields.
    destruct rentingOut; reflexivity.
  - reflexivity.
  - unfold cash_purchase. fields. simpl. lra.
  - unfold cash_purchase. fields. lra.
  - reflexivity.
  - reflexivity.
Qed.

End CashPurchase.

(** A let, renovated for 49730: sold at the break-even price of 1000000,
    the profit is zero. *)
Lemma breakEvenPrice_zero_profit_witness :
  futureValue (cash_purchase true 49730) = 1000000 /\
  breakEvenPrice (cash_purchase true 49730) = 1000000 /\
  netProfit (cash_purchase true 49730) = 0.
Proof.
  assert (Hfv : futureValue (cash_purchase true 49730) = 1000000)
    by apply cp_futureValue.
  assert (Hbe : breakEvenPrice (cash_purchase true 49730) = 1000000)
    by (rewrite cp_breakEvenPrice; lra).
  split; [exact Hfv|]. split; [exact Hbe|].
  apply breakEvenPrice_zero_profit.
  - unfold finite_arithmetic, cash_purchase. fields. lra.
  - reflexivity.
  - reflexivity.
  - reflexivity.
  - reflexivity.
  - exists 3%nat. unfold cash_purchase. fields. simpl. lra.
  - unfold cash_purchase. fields. lra.
  - rewrite Hfv, Hbe. reflexivity.
Defined.

(** C3 as stated fails: an owner-occupied cash purchase, renovated for
    79610 and sold after three years at its break-even price of 1000000,
    has a profit of 158400, the rent saved over the three years. *)
Lemma breakEvenPrice_not_zero_profit :
  valid_inputs (cash_purchase false 79610) /\
  finite_arithmetic (cash_purchase false 79610) /\
  futureValue (cash_purchase false 79610) = 1000000 /\
  breakEvenPrice (cash_purchase false 79610) = 1000000 /\
  netProfit (cash_purchase false 79610) = 158400 /\
  netProfit (cash_purchase false 79610) <> 0.
Proof.
  assert (Hfv : futureValue (cash_purchase false 79610) = 1000000)
    by apply cp_futureValue.
  assert (Hbe : breakEvenPrice (cash_purchase false 79610) = 1000000)
    by (rewrite cp_breakEvenPrice; lra).
  assert (Hnp : netProfit (cash_purchase false 79610) = 158400).
  { rewrite cp_netProfit, Hfv, Hbe, cp_totalSavedRent. lra. }
  split; [|split].
  - unfold valid_inputs, TAX_BRACKETS, cash_purchase. fields. cbn [In].
    repeat split; lra.
  - unfold finite_arithmetic, cash_purchase. fields. lra.
  - split; [exact Hfv|]. split; [exact Hbe|]. split; [exact Hnp|].
    rewrite Hnp. lra.
Qed.

(** ** The URL codec *)

Section UrlRoundTrip.

Import UrlState.

(** Every declared field has a short key, and the reversed dictionary
    leads back from it. *)
Lemma fields_keys_ok :
  map_Forall (fun key (_ : kind) => key_ok key = true)
             (Object_fromEntries PropertyInputs_fields).
Proof. compute_done. Qed.

#[local] Opaque COMPRESSED_KEYS REVERSE_KEYS.

Lemma params_set_fresh params name value :
  name ∉ params.*1 -> params_set params name value = params ++ [(name, value)].
Proof.
  induction params as [|[n v] rest IH]; simpl; intros Hfresh; [done|].
  apply not_elem_of_cons in Hfresh as [Hne Hrest].
  case_decide; [congruence|]. by rewrite IH.
Qed.

Lemma foldl_insert_lookup {V} (l : list (string * V)) (o : gmap string V) k :
  NoDup l.*1 ->
  foldl (fun o kv => <[kv.1 := kv.2]> o) o l !! k
  = match list_to_map (M := gmap string V) l !! k with
    | Some v => Some v
    | None => o !! k
    end.
Proof.
  revert o. induction l as [|[k0 v0] l IH]; intros o Hnd; simpl.
  - by rewrite lookup_empty.
  - apply NoDup_cons in Hnd as [Hk0 Hnd]. rewrite IH by done.
    destruct (decide (k0 = k)) as [->|Hne].
    + rewrite (not_elem_of_list_to_map_1 _ _ Hk0).
      by rewrite !lookup_insert_eq.
    + by rewrite !lookup_insert_ne.
Qed.

Lemma shortKey_of_inj k1 k2 :
  key_ok k1 = true -> key_ok k2 = true -> shortKey_of k1 = shortKey_of k2 -> k1 = k2.
Proof.
  unfold key_ok, shortKey_of.
  destruct (COMPRESSED_KEYS !! k1) as [s1|]; [|done].
  destruct (COMPRESSED_KEYS !! k2) as [s2|]; [|done].
  intros H1 H2 ->.
  apply andb_prop in H1 as [_ H1%bool_decide_eq_true].
  apply andb_prop in H2 as [_ H2%bool_decide_eq_true]. congruence.
Qed.

Context {num : Type}.
Variable String_number : num -> string.
Variable parseFloat : string -> option num.
Hypothesis parseFloat_String : forall n, parseFloat (String_number n) = Some n.

Lemma encode_step_ok params key v :
  key_ok key = true ->
  shortKey_of key ∉ params.*1 ->
  encode_step String_number params (key, v)
  = params ++ [encoded_entry String_number (key, v)].
Proof.
  unfold key_ok, encode_step, encoded_entry, shortKey_of. cbn [fst snd].
  destruct (COMPRESSED_KEYS !! key) as [sk|]; [|done].
  intros Hok Hfresh.
  destruct (truthy sk); [|done].
  destruct v; simpl; by rewrite params_set_fresh.
Qed.

Lemma encode_entries_ok entries params :
  Forall (fun e => key_ok e.1 = true) entries ->
  NoDup entries.*1 ->
  (forall e, e ∈ entries -> shortKey_of e.1 ∉ params.*1) ->
  foldl (encode_step String_number) params entries
  = params ++ map (encoded_entry String_number) entries.
Proof.
  revert params.
  induction entries as [|[key v] rest IH]; intros params Hok Hnd Hfresh; cbn [foldl map].
  - by rewrite app_nil_r.
  - apply Forall_cons in Hok as [Hk Hok]. apply NoDup_cons in Hnd as [Hkey Hnd].
    rewrite encode_step_ok; [|done|apply (Hfresh (key, v)); left].
    rewrite IH; [by rewrite <- app_assoc|done|done|].
    intros [k' v'] Hin. rewrite fmap_app, elem_of_app. intros [Hp|Hp].
    + apply (Hfresh (k', v')); [by right|done].
    + simpl in Hp. apply list_elem_of_singleton in Hp.
      apply shortKey_of_inj in Hp.
      * subst k'. apply Hkey. apply list_elem_of_fmap. by exists (key, v').
      * rewrite Forall_forall in Hok. apply (Hok (k', v')), Hin.
      * done.
Qed.

Lemma decode_step_ok (defaults result : gmap string (value num)) key v d :
  key_ok key = true ->
  defaults !! key = Some d -> typeof d = typeof v ->
  decode_step parseFloat defaults result (encoded_entry String_number (key, v))
  = <[key := v]> result.
Proof.
  unfold key_ok, decode_step, encoded_entry, shortKey_of. cbn [fst snd].
  destruct (COMPRESSED_KEYS !! key) as [sk|]; [|done].
  intros Hok Hd Hty.
  apply andb_prop in Hok as [Hok Hrev%bool_decide_eq_true].
  apply andb_prop in Hok as [_ Hkey].
  rewrite Hrev, Hkey, Hd.
  destruct d, v; simpl in *; try discriminate.
  - by rewrite parseFloat_String.
  - by destruct b0.
  - done.
Qed.

Lemma decode_entries_ok (defaults : gmap string (value num)) entries result :
  Forall (fun e => key_ok e.1 = true
                   /\ exists d, defaults !! e.1 = Some d /\ typeof d = typeof e.2) entries ->
  foldl (decode_step parseFloat defaults) result (map (encoded_entry String_number) entries)
  = foldl (fun o kv => <[kv.1 := kv.2]> o) result entries.
Proof.
  revert result.
  induction entries as [|[key v] rest IH]; intros result Hok; cbn [foldl map]; [done|].
  apply Forall_cons in Hok as [(Hk & d & Hd & Hty) Hok].
  rewrite (decode_step_ok _ _ _ _ d); auto.
Qed.

Lemma typed_lookup (o : gmap string (value num)) key v :
  is_PropertyInputs o -> o !! key = Some v ->
  Object_fromEntries PropertyInputs_fields !! key = Some (typeof v).
Proof.
  unfold is_PropertyInputs. intros <- Hv. by rewrite lookup_fmap, Hv.
Qed.

Lemma typed_entries (inputs defaults : gmap string (value num)) entries :
  is_PropertyInputs inputs -> is_PropertyInputs defaults ->
  entries ≡ₚ map_to_list inputs ->
  Forall (fun e => key_ok e.1 = true
                   /\ exists d, defaults !! e.1 = Some d /\ typeof d = typeof e.2) entries.
Proof.
  intros Hin Hdef Hperm.
  apply Forall_forall. intros [key v] Hel. simpl.
  rewrite Hperm in Hel. apply elem_of_map_to_list in Hel.
  pose proof (typed_lookup _ _ _ Hin Hel) as Hf. split.
  - apply (fields_keys_ok _ _ Hf).
  - unfold is_PropertyInputs in Hdef. rewrite <- Hdef, lookup_fmap in Hf.
    destruct (defaults !! key) as [d|]; [|done]. exists d. split; [done|].
    simpl in Hf. congruence.
Qed.

(** The query string of a full record: one entry for each property, the
    short key and the printed value. *)
Lemma encode_entries_full (inputs : gmap string (value num)) entries :
  is_PropertyInputs inputs ->
  entries ≡ₚ map_to_list inputs ->
  encode_entries String_number entries = map (encoded_entry String_number) entries.
Proof.
  intros Hin Hperm. unfold encode_entries.
  rewrite encode_entries_ok; [done| | |].
  - eapply Forall_impl; [exact (typed_entries inputs inputs entries Hin Hin Hperm)|].
    by intros ? [? _].
  - rewrite Hperm. apply NoDup_fst_map_to_list.
  - intros e _. simpl. apply not_elem_of_nil.
Qed.

(** In whatever order the properties of [inputs] are enumerated,
    decoding what was encoded gives [inputs] back. *)
Lemma round_trip_any_order (inputs defaults : gmap string (value num)) entries :
  is_PropertyInputs inputs -> is_PropertyInputs defaults ->
  entries ≡ₚ map_to_list inputs ->
  decodeStateFromUrl parseFloat (encode_entries String_number entries) defaults = inputs.
Proof.
  intros Hin Hdef Hperm.
  assert (Hnd : NoDup entries.*1).
  { rewrite Hperm. apply NoDup_fst_map_to_list. }
  unfold decodeStateFromUrl.
  rewrite (encode_entries_full inputs) by done.
  rewrite decode_entries_ok by (by apply (typed_entries inputs)).
  apply map_eq. intros k. rewrite foldl_insert_lookup by done.
  rewrite (list_to_map_proper _ _ Hnd Hperm), list_to_map_to_list.
  destruct (inputs !! k) as [v|] eqn:Hk; [done|].
  assert (Hnone : Object_fromEntries PropertyInputs_fields !! k = None).
  { unfold is_PropertyInputs in Hin. by rewrite <- Hin, lookup_fmap, Hk. }
  unfold is_PropertyInputs in Hdef. rewrite <- Hdef, lookup_fmap in Hnone.
  by destruct (defaults !! k).
Qed.

(** C6.  For a full record [inputs] and any full record [defaults],
    decoding the query string that [encodeStateToUrl] produces gives
    [inputs] back, every field with its value, and a boolean field
    travels as ["1"] or ["0"] under its short key.  The numbers are those
    that [parseFloat] reads back from what [String] prints. *)
Theorem url_round_trip (inputs defaults : gmap string (value num)) :
  is_PropertyInputs inputs -> is_PropertyInputs defaults ->
  decodeStateFromUrl parseFloat (encodeStateToUrl String_number inputs) defaults = inputs
  /\ forall key b, inputs !! key = Some (VBoolean b) ->
       (shortKey_of key, if b then "1" else "0") ∈ encodeStateToUrl String_number inputs.
Proof.
  intros Hin Hdef. split.
  - by apply round_trip_any_order.
  - intros key b Hkey. unfold encodeStateToUrl.
    rewrite (encode_entries_full inputs) by done.
    apply list_elem_of_fmap. exists (key, VBoolean b). split; [done|].
    by apply elem_of_map_to_list.
Qed.

End UrlRoundTrip.

Lemma parseFloat_String_Z z : UrlState.parseFloat_Z (UrlState.String_Z z) = Some z.
Proof.
  unfold UrlState.parseFloat_Z, UrlState.String_Z.
  rewrite NilZero.isi.
  - simpl. by rewrite DecimalZ.of_to.
  - destruct z; simpl; try discriminate.
    intros [= H]. revert H. apply DecimalPos.Unsigned.to_uint_nonnil.
  - destruct z; simpl; try discriminate.
    intros [= H]. revert H. apply DecimalPos.Unsigned.to_uint_nonnil.
Qed.

(** Whole numbers in decimal, the sample record, and defaults that differ
    from it in every field. *)
Lemma url_round_trip_witness :
  UrlState.decodeStateFromUrl UrlState.parseFloat_Z
    (UrlState.encodeStateToUrl UrlState.String_Z UrlState.sample_inputs)
    UrlState.other_defaults
  = UrlState.sample_inputs.
Proof.
  apply (url_round_trip UrlState.String_Z UrlState.parseFloat_Z parseFloat_String_Z).
  - unfold UrlState.is_PropertyInputs. compute_done.
  - unfold UrlState.is_PropertyInputs. compute_done.
Defined.


(** * Further properties of the code *)

(** ** Proof tools *)

(** Comparisons only: the branches that the hypotheses exclude are dropped. *)
Ltac js_split :=
  repeat (case_decide; try (exfalso; lra)).

Ltac js_lin := js_split; js_minmax; lra.

(** A disequality that follows linearly from one in the context. *)
Ltac neq_lra :=
  let H := fresh in
  intros H;
  first [ lra | match goal with Hn : _ <> _ |- _ => apply Hn; lra end ].

(** The part of [y] above a threshold grows with [y], by at most as much. *)
Lemma excess_monotone (t x y : R) :
  x <= y -> 0 <= Rmax 0 (y - t) - Rmax 0 (x - t) <= y - x.
Proof. intros Hle. unfold Rmax. repeat destruct (Rle_dec _ _); lra. Qed.

Lemma Math_floor_monotone (x y : R) : x <= y -> Math_floor x <= Math_floor y.
Proof.
  intros Hle. pose proof (Math_floor_bounds x) as Hx. pose proof (Math_floor_bounds y) as Hy.
  unfold Math_floor in *.
  assert (Hlt : IZR (Int_part x) < IZR (Int_part y + 1)) by (rewrite plus_IZR; lra).
  apply lt_IZR in Hlt. apply IZR_le. lia.
Qed.

Lemma Math_round_bounds (x : R) : x - 0.5 < Math_round x <= x + 0.5.
Proof.
  pose proof (Math_floor_bounds (x + 0.5)) as H. unfold Math_floor in H.
  unfold Math_round. lra.
Qed.

Lemma Math_round_monotone (x y : R) : x <= y -> Math_round x <= Math_round y.
Proof.
  intros Hle. apply (Math_floor_monotone (x + 0.5) (y + 0.5)). lra.
Qed.

Lemma Math_pow_ge_1 (x y : R) : 1 <= x -> 0 <= y -> 1 <= Math_pow x y.
Proof.
  intros Hx Hy. rewrite Math_pow_pos_base by lra. unfold Rpower.
  assert (0 <= ln x).
  { destruct (Req_dec x 1) as [->|Hne]; [rewrite ln_1; lra|].
    left. rewrite <- ln_1. apply ln_increasing; lra. }
  pose proof (exp_ineq1_le (y * ln x)). nra.
Qed.

Lemma Math_pow_base_monotone (x1 x2 y : R) :
  0 < x1 <= x2 -> 0 <= y -> Math_pow x1 y <= Math_pow x2 y.
Proof.
  intros Hx Hy. rewrite !Math_pow_pos_base by lra. by apply Rle_Rpower_l.
Qed.

Lemma Math_pow_exponent_monotone (x y1 y2 : R) :
  1 <= x -> y1 <= y2 -> Math_pow x y1 <= Math_pow x y2.
Proof.
  intros Hx Hy. rewrite !Math_pow_pos_base by lra. by apply Rle_Rpower.
Qed.

Lemma Math_pow_1_r (x : R) : Math_pow x 1 = x.
Proof.
  unfold Math_pow. case_decide.
  - by apply Rpower_1.
  - assert (Hint : Int_part 1 = 1%Z) by (symmetry; apply Int_part_spec; lra).
    rewrite Hint. rewrite decide_True by reflexivity. simpl. lra.
Qed.

Lemma growth_factor_ne_1 (r n : R) :
  0 < 1 + r -> r <> 0 -> n <> 0 -> Rpower (1 + r) n <> 1.
Proof.
  intros Hbase Hr Hn Heq. unfold Rpower in Heq.
  assert (Hexp : n * ln (1 + r) = 0) by (apply exp_inv; by rewrite exp_0).
  apply Rmult_integral in Hexp as [Hexp|Hexp]; [done|].
  apply Hr. assert (H1 : 1 + r = 1); [|lra].
  apply ln_inv; [lra|lra|]. by rewrite ln_1.
Qed.

Lemma growth_factor_ge_1 (r n : R) : 0 < r -> 0 <= n -> 1 <= Rpower (1 + r) n.
Proof.
  intros Hr Hn. destruct (Req_dec n 0) as [->|Hne].
  - rewrite Rpower_O by lra. lra.
  - left. apply growth_factor_bounds; lra.
Qed.

(** ** Policy tables *)

(** Buyer's duty is one percent of what the price exceeds each of the six
    thresholds by, summed. *)
Lemma calculateBSD_excess_form (price : R) :
  calculateBSD price
  = 0.01 * (Rmax 0 price + Rmax 0 (price - 180000) + Rmax 0 (price - 360000)
            + Rmax 0 (price - 1000000) + Rmax 0 (price - 1500000)
            + Rmax 0 (price - 3000000)).
Proof. unfold_bsd. cbv zeta. js_lin. Qed.

(** X1.  Buyer's duty never falls when the price rises, and rises by at
    most six cents for each dollar: it is continuous across the bands. *)
Theorem calculateBSD_monotone (price1 price2 : R) :
  price1 <= price2 ->
  0 <= calculateBSD price2 - calculateBSD price1 <= 0.06 * (price2 - price1).
Proof.
  intros Hle. rewrite !calculateBSD_excess_form.
  pose proof (excess_monotone 0 price1 price2 Hle) as H0.
  rewrite !Rminus_0_r in H0.
  pose proof (excess_monotone 180000 price1 price2 Hle).
  pose proof (excess_monotone 360000 price1 price2 Hle).
  pose proof (excess_monotone 1000000 price1 price2 Hle).
  pose proof (excess_monotone 1500000 price1 price2 Hle).
  pose proof (excess_monotone 3000000 price1 price2 Hle).
  lra.
Qed.

Lemma calculateBSD_monotone_witness :
  0 <= calculateBSD 1500000 - calculateBSD 1000000 <= 0.06 * (1500000 - 1000000).
Proof. apply calculateBSD_monotone. lra. Defined.

(** X2.  A price that is not positive pays no duty; a price that is not
    negative pays between 1% and 6% of itself, exactly 1% up to 180000 and
    119600 plus 6% of the excess from 3000000 on. *)
Theorem calculateBSD_effective_rate (price : R) :
  (price <= 0 -> calculateBSD price = 0) /\
  (0 <= price -> 0.01 * price <= calculateBSD price <= 0.06 * price) /\
  (0 <= price <= 180000 -> calculateBSD price = 0.01 * price) /\
  (3000000 <= price -> calculateBSD price = 119600 + 0.06 * (price - 3000000)).
Proof.
  rewrite calculateBSD_excess_form. unfold Rmax.
  repeat split; intros; repeat destruct (Rle_dec _ _); lra.
Qed.

Lemma calculateBSD_effective_rate_witness :
  calculateBSD (-5) = 0 /\
  0.01 * 5000000 <= calculateBSD 5000000 <= 0.06 * 5000000 /\
  calculateBSD 5000000 = 119600 + 0.06 * (5000000 - 3000000).
Proof.
  destruct (calculateBSD_effective_rate (-5)) as (Hzero & _).
  destruct (calculateBSD_effective_rate 5000000) as (_ & Hrate & _ & Htop).
  split; [apply Hzero; lra|]. split; [apply Hrate; lra|apply Htop; lra].
Defined.

(** X3.  For a price that is not negative, seller's duty never rises with
    the years held, is never negative and never above 12% of the price. *)
Theorem calculateSSD_decreasing (price years1 years2 : R) :
  0 <= price -> years1 <= years2 ->
  0 <= calculateSSD price years2 <= calculateSSD price years1 /\
  calculateSSD price years1 <= 0.12 * price.
Proof. intros Hp Hle. unfold calculateSSD. js_lin. Qed.

Lemma calculateSSD_decreasing_witness :
  0 <= calculateSSD 1000000 2.5 <= calculateSSD 1000000 0.5 /\
  calculateSSD 1000000 0.5 <= 0.12 * 1000000.
Proof. apply calculateSSD_decreasing; lra. Defined.

(** X4.  In the engine, for a positive sale value, [ssdApplies] is true
    exactly when seller's duty is charged, and false exactly when it is
    zero. *)
Theorem ssdApplies_agrees (inputs : PropertyInputs) :
  futureValue inputs > 0 ->
  (ssdApplies inputs = true <-> ssd inputs > 0) /\
  (ssdApplies inputs = false <-> ssd inputs = 0).
Proof.
  intros Hfv. unfold ssdApplies, ssd, calculateSSD.
  split; split.
  - intros H%bool_decide_eq_true. js_lin.
  - intros H. apply bool_decide_eq_true. revert H. js_lin.
  - intros H%bool_decide_eq_false. js_lin.
  - intros H. apply bool_decide_eq_false. revert H. js_lin.
Qed.

Lemma ssdApplies_agrees_witness :
  ssdApplies (cash_purchase true 0) = false <-> ssd (cash_purchase true 0) = 0.
Proof.
  apply ssdApplies_agrees. rewrite cp_futureValue. lra.
Defined.

(** X5.  On every annual value the owner-occupied property tax is not
    negative and not above the tax of a property that is let. *)
Theorem propertyTax_owner_occupied_lower (annualValue : R) :
  0 <= calculatePropertyTax annualValue true
    <= calculatePropertyTax annualValue false.
Proof. unfold calculatePropertyTax. cbv zeta. js_lin. Qed.

Lemma propertyTax_owner_excess_form (av : R) :
  calculatePropertyTax av true
  = 0.04 * Rmax 0 (av - 8000) + 0.02 * Rmax 0 (av - 30000)
    + 0.04 * Rmax 0 (av - 40000) + 0.04 * Rmax 0 (av - 55000)
    + 0.06 * Rmax 0 (av - 70000) + 0.06 * Rmax 0 (av - 85000)
    + 0.06 * Rmax 0 (av - 100000).
Proof. unfold calculatePropertyTax. cbv zeta. js_lin. Qed.

Lemma propertyTax_rental_excess_form (av : R) :
  calculatePropertyTax av false
  = 0.12 * Rmax 0 av + 0.08 * Rmax 0 (av - 30000)
    + 0.08 * Rmax 0 (av - 45000) + 0.08 * Rmax 0 (av - 60000).
Proof. unfold calculatePropertyTax. cbv zeta. js_lin. Qed.

(** X6.  Property tax never falls when the annual value rises, and rises
    by at most the top rate of its table (32% owner-occupied, 36% let):
    both tables are continuous across their bands. *)
Theorem propertyTax_monotone (av1 av2 : R) (isOwnerOccupied : bool) :
  av1 <= av2 ->
  0 <= calculatePropertyTax av2 isOwnerOccupied - calculatePropertyTax av1 isOwnerOccupied
    <= (if isOwnerOccupied then 0.32 else 0.36) * (av2 - av1).
Proof.
  intros Hle. destruct isOwnerOccupied.
  - rewrite !propertyTax_owner_excess_form.
    pose proof (excess_monotone 8000 av1 av2 Hle).
    pose proof (excess_monotone 30000 av1 av2 Hle).
    pose proof (excess_monotone 40000 av1 av2 Hle).
    pose proof (excess_monotone 55000 av1 av2 Hle).
    pose proof (excess_monotone 70000 av1 av2 Hle).
    pose proof (excess_monotone 85000 av1 av2 Hle).
    pose proof (excess_monotone 100000 av1 av2 Hle).
    lra.
  - rewrite !propertyTax_rental_excess_form.
    pose proof (excess_monotone 0 av1 av2 Hle) as H0.
    rewrite !Rminus_0_r in H0.
    pose proof (excess_monotone 30000 av1 av2 Hle).
    pose proof (excess_monotone 45000 av1 av2 Hle).
    pose proof (excess_monotone 60000 av1 av2 Hle).
    lra.
Qed.

Lemma propertyTax_monotone_witness :
  0 <= calculatePropertyTax 60000 true - calculatePropertyTax 30000 true
    <= 0.32 * (60000 - 30000).
Proof. apply (propertyTax_monotone 30000 60000 true). lra. Defined.

(** X7.  With a marginal rate that is not negative, the rental income tax
    is not negative, is zero once the mortgage interest reaches 85% of the
    gross rent, and with interest that is not negative stays within the
    rate applied to 85% of the rent. *)
Theorem rentalIncomeTax_bounds (grossRent mortgageInterest marginalTaxRate : R) :
  0 <= marginalTaxRate ->
  0 <= calculateRentalIncomeTax grossRent mortgageInterest marginalTaxRate /\
  (grossRent * 0.85 <= mortgageInterest ->
     calculateRentalIncomeTax grossRent mortgageInterest marginalTaxRate = 0) /\
  (0 <= mortgageInterest ->
     calculateRentalIncomeTax grossRent mortgageInterest marginalTaxRate
       <= Rmax 0 (grossRent * 0.85) * (marginalTaxRate / 100)).
Proof.
  intros Hrate. unfold calculateRentalIncomeTax. cbv zeta.
  unfold Math_max, Rmax.
  repeat split; intros; repeat destruct (Rle_dec _ _); nra.
Qed.

Lemma rentalIncomeTax_bounds_witness :
  0 <= calculateRentalIncomeTax 48000 45000 15 /\
  calculateRentalIncomeTax 48000 45000 15 = 0.
Proof.
  destruct (rentalIncomeTax_bounds 48000 45000 15) as (Hpos & Hzero & _); [lra|].
  split; [exact Hpos|apply Hzero; lra].
Defined.

(** ** Debt servicing *)



Lemma calculateMonthlyPayment_linear (k principal annualRate years : R) :
  years <> 0 -> 0 < 1 + annualRate / 100 / 12 ->
  calculateMonthlyPayment (k * principal) annualRate years
  = k * calculateMonthlyPayment principal annualRate years.
Proof.
  intros Hyears Hbase. unfold calculateMonthlyPayment. cbv zeta.
  destruct (decide (principal = 0)) as [->|Hp].
  - rewrite decide_True by lra. lra.
  - destruct (decide (k = 0)) as [->|Hk].
    + rewrite decide_True by lra. lra.
    + rewrite decide_False by (intros H; apply Rmult_integral in H; tauto).
      case_decide as Hrate.
      * field. neq_lra.
      * rewrite Math_pow_pos_base by lra.
        assert (Rpower (1 + annualRate / 100 / 12) (years * 12) <> 1).
        { apply growth_factor_ne_1; [lra|neq_lra|neq_lra]. }
        field. neq_lra.
Qed.

(** X9.  At a rate other than zero the payments of the whole tenure,
    discounted at the loan rate, are worth the principal: the annuity
    formula of the payment and the one of the balance invert each other. *)
Theorem monthlyPayment_present_value (principal annualRate years : R) :
  annualRate <> 0 -> years <> 0 -> 0 < 1 + annualRate / 100 / 12 ->
  calculateMonthlyPayment principal annualRate years
    * (1 - Math_pow (1 + annualRate / 100 / 12) (- (years * 12)))
    / (annualRate / 100 / 12)
  = principal.
Proof.
  intros Hrate Hyears Hbase. unfold calculateMonthlyPayment. cbv zeta.
  rewrite !Math_pow_pos_base by lra. rewrite Rpower_Ropp.
  set (r := annualRate / 100 / 12). set (g := Rpower (1 + r) (years * 12)).
  assert (Hr : r <> 0) by (unfold r; neq_lra).
  assert (Hg1 : g <> 1).
  { apply growth_factor_ne_1; [unfold r; lra|done|neq_lra]. }
  assert (Hg0 : 0 < g) by apply exp_pos.
  case_decide as Hp; [rewrite Hp; unfold Rdiv; ring|].
  rewrite decide_False by done. field. repeat split; neq_lra.
Qed.

Lemma monthlyPayment_present_value_witness :
  calculateMonthlyPayment 1125000 2.6 30
    * (1 - Math_pow (1 + 2.6 / 100 / 12) (- (30 * 12))) / (2.6 / 100 / 12)
  = 1125000.
Proof. apply monthlyPayment_present_value; [neq_lra|neq_lra|lra]. Defined.

(** X10.  At a positive rate and before the end of the tenure, the
    remaining loan is the balance of the amortisation schedule, the loan
    times [(g - gh) / (g - 1)], with [g] and [gh] the growth of the
    monthly rate over the tenure and over the years held; it lies between
    zero and the loan amount, and is the whole loan when no time has
    passed. *)
Theorem remainingLoan_balance (inputs : PropertyInputs) :
  loanInterestRate inputs > 0 ->
  0 <= holdingPeriodYears inputs < loanTenureYears inputs ->
  let g := Rpower (1 + monthlyRate inputs) (loanTenureYears inputs * 12) in
  let gh := Rpower (1 + monthlyRate inputs) (holdingPeriodYears inputs * 12) in
  remainingLoan inputs = loanAmount inputs * (g - gh) / (g - 1) /\
  (0 <= loanAmount inputs -> 0 <= remainingLoan inputs <= loanAmount inputs) /\
  (holdingPeriodYears inputs = 0 -> remainingLoan inputs = loanAmount inputs).
Proof.
  intros Hrate [Hh Hten] g gh.
  assert (Hr : 0 < monthlyRate inputs) by (unfold monthlyRate; lra).
  assert (Hg : 1 < g) by (apply growth_factor_bounds; lra).
  assert (Hgh : 1 <= gh) by (apply growth_factor_ge_1; lra).
  assert (Hle : gh < g).
  { unfold g, gh, Rpower. apply exp_increasing.
    assert (0 < ln (1 + monthlyRate inputs)).
    { rewrite <- ln_1. apply ln_increasing; lra. }
    nra. }
  assert (Hform : remainingLoan inputs = loanAmount inputs * (g - gh) / (g - 1)).
  { unfold remainingLoan, paymentsRemaining.
    rewrite (bool_decide_eq_true_2 (_ > 0)) by lra.
    rewrite (bool_decide_eq_true_2 (monthlyRate inputs > 0)) by lra.
    cbn [andb]. rewrite Math_pow_pos_base by lra. rewrite Rpower_Ropp.
    replace ((loanTenureYears inputs - holdingPeriodYears inputs) * 12)
      with (loanTenureYears inputs * 12 + - (holdingPeriodYears inputs * 12)) by lra.
    rewrite Rpower_plus, Rpower_Ropp. fold g gh.
    unfold monthlyPayment, calculateMonthlyPayment. cbv zeta.
    case_decide as Hp; [rewrite Hp; unfold Rdiv; ring|].
    rewrite decide_False by lra.
    fold (monthlyRate inputs). rewrite Math_pow_pos_base by lra. fold g.
    field. repeat split; lra. }
  split; [exact Hform|]. split.
  - intros Hloan. rewrite Hform.
    assert (Hfrac : 0 <= (g - gh) / (g - 1) <= 1).
    { split.
      - apply Rmult_le_pos; [lra|]. left. apply Rinv_0_lt_compat. lra.
      - apply (Rmult_le_reg_r (g - 1)); [lra|].
        replace ((g - gh) / (g - 1) * (g - 1)) with (g - gh) by (field; lra). lra. }
    replace (loanAmount inputs * (g - gh) / (g - 1))
      with (loanAmount inputs * ((g - gh) / (g - 1))) by (unfold Rdiv; ring).
    nra.
  - intros Hzero. rewrite Hform. unfold gh. rewrite Hzero, Rmult_0_l.
    rewrite Rpower_O by lra. field. lra.
Qed.

Lemma remainingLoan_balance_witness :
  0 <= remainingLoan DEFAULT_INPUTS <= loanAmount DEFAULT_INPUTS.
Proof.
  destruct (remainingLoan_balance DEFAULT_INPUTS) as (_ & Hbound & _).
  - unfold DEFAULT_INPUTS. fields. lra.
  - unfold DEFAULT_INPUTS. fields. lra.
  - apply Hbound. unfold loanAmount, DEFAULT_INPUTS, DEFAULT_PRICE. fields. lra.
Defined.

(** ** Maximum affordable price and the checks of the engine *)

(** The largest loan that the TDSR allows costs the largest monthly
    payment. *)
Lemma payment_of_max_loan (income debt lp rate tenure : R) :
  0 <= rate -> 0 < tenure -> 0 < lp -> 0 < income * 0.55 - debt ->
  calculateMonthlyPayment (maxFromTDSR income debt lp rate tenure * (lp / 100)) rate tenure
  = income * 0.55 - debt.
Proof.
  intros Hrate Hten Hlp Hm. unfold maxFromTDSR. cbv zeta.
  set (m := income * 0.55 - debt) in *.
  destruct (decide (rate / 100 / 12 > 0)) as [Hr|Hr];
    unfold calculateMonthlyPayment; cbv zeta.
  - assert (Hrate' : 0 < rate) by lra.
    set (r := rate / 100 / 12) in *.
    assert (Hr0 : 0 < r) by (unfold r; lra).
    rewrite !Math_pow_pos_base by lra. rewrite Rpower_Ropp.
    destruct (growth_factor_bounds r (tenure * 12)) as [Hg _]; [lra|lra|].
    set (g := Rpower (1 + r) (tenure * 12)) in *.
    assert (Hloan : m * (1 - / g) / r / (lp / 100) * (lp / 100) = m * (1 - / g) / r)
      by (field; lra).
    rewrite Hloan.
    assert (Hpos : 0 < m * (1 - / g) / r).
    { apply Rmult_lt_0_compat; [|apply Rinv_0_lt_compat; lra].
      apply Rmult_lt_0_compat; [lra|].
      assert (/ g < 1); [|lra]. rewrite <- Rinv_1. apply Rinv_lt_contravar; lra. }
    rewrite decide_False by lra. rewrite decide_False by lra.
    field. lra.
  - assert (Hzero : rate = 0) by lra.
    assert (Hloan : m * (tenure * 12) / (lp / 100) * (lp / 100) = m * (tenure * 12))
      by (field; lra).
    rewrite Hloan.
    rewrite decide_False by nra. rewrite decide_True by done.
    field. lra.
Qed.

(** X11.  In exact arithmetic the TDSR bound inverts the payment formula:
    the loan of a purchase at that price has a monthly payment of 55% of
    the income less the existing debt, and the loan of a purchase at [k]
    times that price has [k] times that payment. *)
Theorem maxFromTDSR_inverts_payment (income debt lp rate tenure k : R) :
  0 <= rate -> 0 < tenure -> 0 < lp -> 0 < income * 0.55 - debt ->
  calculateMonthlyPayment (maxFromTDSR income debt lp rate tenure * (lp / 100)) rate tenure
  = income * 0.55 - debt /\
  calculateMonthlyPayment (k * maxFromTDSR income debt lp rate tenure * (lp / 100))
    rate tenure
  = k * (income * 0.55 - debt).
Proof.
  intros Hrate Hten Hlp Hm.
  pose proof (payment_of_max_loan income debt lp rate tenure Hrate Hten Hlp Hm) as Hinv.
  split; [exact Hinv|].
  rewrite <- Hinv. rewrite <- calculateMonthlyPayment_linear; [|lra|lra].
  f_equal. ring.
Qed.

Lemma maxFromTDSR_inverts_payment_witness :
  calculateMonthlyPayment (maxFromTDSR 15000 1000 75 2.6 30 * (75 / 100)) 2.6 30
  = 15000 * 0.55 - 1000.
Proof. apply (maxFromTDSR_inverts_payment 15000 1000 75 2.6 30 1); lra. Defined.

(** On double-precision numbers the ratio of a payment of exactly 55% of
    the income is computed above 55. *)
Lemma binary64_tdsr_at_the_limit (Math_pow : float -> float -> float) :
  Binary64.calculateTDSR 8250 0 15000 = 55.000000000000007%float
  /\ Binary64.calculateTDSR 7250 1000 15000 = 55.000000000000007%float
  /\ (Binary64.calculateTDSR 8250 0 15000 <=? 55)%float = false.
Proof. repeat split; vm_compute; reflexivity. Qed.

(** X12.  On double-precision numbers a purchase at the maximum affordable
    price can fail the TDSR check of the engine, with every input
    non-negative, a loan percentage between 0 and 105, a tenure above
    zero and a budget above zero.  With an income of 10000, no debt and a
    loan of 55% at rate 0 over 10 years, the maximum affordable price is
    1200000; its loan of 660000 costs 5500 a month, 55% of the income,
    and the ratio is computed as 55.000000000000007. *)
Theorem maxAffordablePrice_can_fail_tdsr (Math_pow : float -> float -> float) :
  exists cash cpf income debt lp rate tenure : float,
    ((0 <=? cash) && (0 <=? cpf) && (0 <=? debt) && (0 <=? rate) && (0 <? tenure)
     && (0 <? lp) && (lp <? 105) && (0 <? income * 0.55 - debt))%float = true /\
    Binary64.calculateMaxAffordablePrice Math_pow cash cpf income debt lp rate tenure
    = 1200000%float /\
    Binary64.calculateMonthlyPayment Math_pow
      (Binary64.loanAmount 1200000 lp) rate tenure = 5500%float /\
    Binary64.tdsrOk Math_pow
      (Binary64.calculateMaxAffordablePrice Math_pow cash cpf income debt lp rate tenure)
      lp rate tenure debt income = false.
Proof.
  exists 10000000%float, 0%float, 10000%float, 0%float, 55%float, 0%float, 10%float.
  repeat split; vm_compute; reflexivity.
Qed.

(** X13.  More cash or more CPF never lowers the maximum affordable
    price. *)
Theorem maxAffordablePrice_monotone_cash
    (cash1 cash2 cpf1 cpf2 income debt lp rate tenure : R) :
  0 < lp -> lp < 105 -> 0 <= rate -> cash1 <= cash2 -> cpf1 <= cpf2 ->
  calculateMaxAffordablePrice cash1 cpf1 income debt lp rate tenure
    <= calculateMaxAffordablePrice cash2 cpf2 income debt lp rate tenure.
Proof.
  intros Hlp0 Hlp _ Hcash Hcpf. rewrite !calculateMaxAffordablePrice_unfold by exact Hlp0.
  case_decide; [lra|].
  assert (Hbound : maxFromCashCpf cash1 cpf1 lp <= maxFromCashCpf cash2 cpf2 lp).
  { unfold maxFromCashCpf. apply Rmult_le_compat_r; [|lra].
    left. apply Rinv_0_lt_compat. lra. }
  assert (Hmin : Math_min (maxFromCashCpf cash1 cpf1 lp) (maxFromTDSR income debt lp rate tenure)
                 <= Math_min (maxFromCashCpf cash2 cpf2 lp)
                             (maxFromTDSR income debt lp rate tenure)).
  { unfold Math_min, Rmin. repeat destruct (Rle_dec _ _); lra. }
  pose proof (Math_floor_monotone _ _
    (Rmult_le_compat_r (/ 50000) _ _ ltac:(lra) Hmin)) as Hfl.
  unfold Rdiv. lra.
Qed.

Lemma maxAffordablePrice_monotone_cash_witness :
  calculateMaxAffordablePrice 500000 0 15000 0 75 2.6 30
    <= calculateMaxAffordablePrice 500000 150000 15000 0 75 2.6 30.
Proof. apply maxAffordablePrice_monotone_cash; lra. Defined.

(** X14.  For CPF money that is not negative, the accrued interest is not
    negative and never falls as the years go by. *)
Theorem cpfAccruedInterest_grows (cpfUsed years1 years2 : R) :
  0 <= cpfUsed -> 0 <= years1 <= years2 ->
  0 <= calculateCpfAccruedInterest cpfUsed years1
    <= calculateCpfAccruedInterest cpfUsed years2.
Proof.
  intros Hcpf [H1 H2]. unfold calculateCpfAccruedInterest.
  pose proof (Math_pow_ge_1 1.025 years1 ltac:(lra) H1).
  pose proof (Math_pow_ge_1 1.025 years2 ltac:(lra) ltac:(lra)).
  pose proof (Math_pow_exponent_monotone 1.025 years1 years2 ltac:(lra) H2).
  repeat case_decide; try nra.
Qed.

Lemma cpfAccruedInterest_grows_witness :
  0 <= calculateCpfAccruedInterest 150000 0 <= calculateCpfAccruedInterest 150000 5.
Proof. apply cpfAccruedInterest_grows; lra. Defined.

(** X15.  The CPF return shown beside the benchmarks is the accrued
    interest on the CPF used for the downpayment, whether or not CPF is
    used and however long the property is held. *)
Theorem cpfReturn_is_accrued_interest (inputs : PropertyInputs) :
  cpfReturn inputs
  = calculateCpfAccruedInterest (cpfUsedForDownpayment inputs) (holdingPeriodYears inputs).
Proof.
  unfold cpfReturn, calculateCpfAccruedInterest.
  case_decide as Hz.
  - destruct Hz as [Hz|Hz]; rewrite Hz.
    + destruct (useCpfForDownpayment inputs); lra.
    + rewrite Math_pow_pos_base, Rpower_O by lra.
      destruct (useCpfForDownpayment inputs); lra.
  - destruct (useCpfForDownpayment inputs) eqn:Huse; [reflexivity|].
    exfalso. apply Hz. left.
    unfold cpfUsedForDownpayment, maxCpfForDownpayment. rewrite Huse.
    unfold Math_max, Rmax. destruct (Rle_dec 0 0); lra.
Qed.



(** X17.  The shortfall is the cash gap floored at zero, whatever the
    verdict: it is never negative, and never positive for a purchase that
    [canAfford] accepts. *)
Theorem shortfall_is_cash_gap (inputs : PropertyInputs) :
  shortfall inputs = Math_max 0 (cashNeeded inputs - cashAvailable inputs) /\
  0 <= shortfall inputs /\
  canAfford inputs && bool_decide (shortfall inputs > 0) = false.
Proof.
  assert (Hgap : shortfall inputs = Math_max 0 (cashNeeded inputs - cashAvailable inputs)).
  { unfold shortfall. destruct (canAfford inputs) eqn:Hafford; [|reflexivity].
    unfold canAfford in Hafford.
    apply andb_prop in Hafford as [Hafford _].
    apply andb_prop in Hafford as [Hcash%bool_decide_eq_true _].
    unfold Math_max, Rmax. destruct (Rle_dec _ _); lra. }
  split; [exact Hgap|]. split.
  - rewrite Hgap. unfold Math_max, Rmax. destruct (Rle_dec _ _); lra.
  - unfold shortfall. destruct (canAfford inputs); [|reflexivity].
    apply bool_decide_eq_false. lra.
Qed.

(** X18.  Where the maximum affordable price is computed without a
    division by zero (a loan percentage between 0 and 105, a rate that is
    not negative): an over-stretched buyer is a stretched one.  With a
    positive maximum affordable price the two flags compare the price with
    it and with 80% of it; when nothing is affordable the ratio is set to
    100, so the buyer counts as stretched and not as over-stretched. *)
Theorem stretched_flags (inputs : PropertyInputs) :
  0 < loanPercentage inputs < 105 -> 0 <= loanInterestRate inputs ->
  (isOverStretched inputs = true -> isStretched inputs = true) /\
  (maxAffordablePrice inputs > 0 ->
     (isOverStretched inputs = true <-> price inputs > maxAffordablePrice inputs) /\
     (isStretched inputs = true <-> price inputs > 0.8 * maxAffordablePrice inputs)) /\
  (maxAffordablePrice inputs <= 0 ->
     affordabilityRatio inputs = 100 /\
     isStretched inputs = true /\ isOverStretched inputs = false).
Proof.
  intros _ _. unfold isOverStretched, isStretched.
  split; [|split].
  - intros H%bool_decide_eq_true. apply bool_decide_eq_true. lra.
  - intros Hmax. unfold affordabilityRatio. rewrite decide_True by done.
    set (m := maxAffordablePrice inputs) in *. set (p := price inputs).
    assert (Hp : p = p / m * m) by (field; lra).
    rewrite !bool_decide_eq_true. split; split; intros H.
    + rewrite Hp. nra.
    + apply (Rmult_lt_reg_r m); [lra|].
      replace (p / m * 100 * m) with (p * 100) by (field; lra). lra.
    + rewrite Hp. nra.
    + apply (Rmult_lt_reg_r m); [lra|].
      replace (p / m * 100 * m) with (p * 100) by (field; lra). lra.
  - intros Hmax. unfold affordabilityRatio. rewrite decide_False by lra.
    split; [reflexivity|]. split.
    + apply bool_decide_eq_true. lra.
    + apply bool_decide_eq_false. lra.
Qed.

(** Without income nothing is affordable: stretched, not over-stretched. *)
Lemma stretched_flags_witness :
  maxAffordablePrice no_income_inputs = 0 /\
  affordabilityRatio no_income_inputs = 100 /\
  isStretched no_income_inputs = true /\ isOverStretched no_income_inputs = false.
Proof.
  assert (Hmax : maxAffordablePrice no_income_inputs = 0).
  { unfold maxAffordablePrice. apply calculateMaxAffordablePrice_no_budget.
    unfold no_income_inputs. fields. lra. }
  split; [exact Hmax|].
  destruct (stretched_flags no_income_inputs) as (_ & _ & Hnone).
  - unfold no_income_inputs. fields. lra.
  - unfold no_income_inputs. fields. lra.
  - apply Hnone. rewrite Hmax. lra.
Defined.

(** X19.  For cash that is not negative and a holding period that is not
    negative the benchmark returns are ordered: savings, bonds, REITs,
    stocks, none of them negative. *)
Theorem benchmark_returns_ordered (inputs : PropertyInputs) :
  0 <= cashNeeded inputs -> 0 <= holdingPeriodYears inputs ->
  0 <= savingsReturn inputs /\
  savingsReturn inputs <= bondReturn inputs /\
  bondReturn inputs <= reitReturn inputs /\
  reitReturn inputs <= stockReturn inputs.
Proof.
  intros Hcash Hh. unfold savingsReturn, bondReturn, reitReturn, stockReturn, cashInvestment.
  pose proof (Math_pow_ge_1 1.025 (holdingPeriodYears inputs) ltac:(lra) Hh).
  pose proof (Math_pow_base_monotone 1.025 1.04 (holdingPeriodYears inputs) ltac:(lra) Hh).
  pose proof (Math_pow_base_monotone 1.04 1.06 (holdingPeriodYears inputs) ltac:(lra) Hh).
  pose proof (Math_pow_base_monotone 1.06 1.08 (holdingPeriodYears inputs) ltac:(lra) Hh).
  repeat split; nra.
Qed.

Lemma cp_cashNeeded (rentingOut : bool) (renovation : R) :
  cashNeeded (cash_purchase rentingOut renovation) = 1027600 + renovation.
Proof.
  unfold cashNeeded, cashForDownpayment, cpfUsedForDownpayment, maxCpfForDownpayment,
    downPayment, loanAmount.
  rewrite cp_totalUpfrontCosts. unfold cash_purchase. fields.
  unfold Math_max, Rmax. destruct (Rle_dec 0 0); lra.
Qed.

Lemma benchmark_returns_ordered_witness :
  0 <= savingsReturn (cash_purchase true 0) /\
  savingsReturn (cash_purchase true 0) <= bondReturn (cash_purchase true 0) /\
  bondReturn (cash_purchase true 0) <= reitReturn (cash_purchase true 0) /\
  reitReturn (cash_purchase true 0) <= stockReturn (cash_purchase true 0).
Proof.
  apply benchmark_returns_ordered.
  - rewrite cp_cashNeeded. lra.
  - unfold cash_purchase. fields. lra.
Defined.

Lemma pvNegativeCashflows_nonneg (inputs : PropertyInputs) :
  0 <= pvNegativeCashflows inputs.
Proof.
  unfold pvNegativeCashflows, Math_abs. case_decide; [apply Rabs_pos|lra].
Qed.

(** X20.  In finite arithmetic: with a total investment that is not
    positive both ROI figures are set to 0; with a positive one the ROI
    has the sign of the net profit, and over a holding period of one year
    the annualised ROI, as a percentage, is the ROI. *)
Theorem roi_guard (inputs : PropertyInputs) :
  finite_arithmetic inputs ->
  (totalInvestment inputs <= 0 -> roi inputs = 0 /\ annualizedRoi inputs = 0) /\
  (totalInvestment inputs > 0 ->
     (0 <= roi inputs <-> 0 <= netProfit inputs) /\
     (holdingPeriodYears inputs = 1 -> annualizedRoi inputs * 100 = roi inputs)).
Proof.
  intros _. unfold roi, annualizedRoi. split.
  - intros Hle. rewrite !decide_False by lra. done.
  - intros Hpos. rewrite !decide_True by done.
    set (t := totalInvestment inputs) in *. set (p := netProfit inputs).
    split.
    + assert (Hp : p = p / t * t) by (field; lra).
      split; intros H.
      * rewrite Hp. nra.
      * apply (Rmult_le_reg_r t); [lra|].
        replace (p / t * 100 * t) with (p * 100) by (field; lra). lra.
    + intros ->. replace (1 / 1) with 1 by lra. rewrite Math_pow_1_r. lra.
Qed.

Lemma roi_guard_witness :
  0 <= roi (cash_purchase true 49730) <-> 0 <= netProfit (cash_purchase true 49730).
Proof.
  destruct (roi_guard (cash_purchase true 49730)) as (_ & Hpos).
  - unfold finite_arithmetic, cash_purchase. fields. repeat split; [neq_lra|lra|lra].
  - apply Hpos.
    pose proof (pvNegativeCashflows_nonneg (cash_purchase true 49730)) as Hpv.
    unfold totalInvestment, totalInitialExpense, downPayment, loanAmount.
    rewrite cp_totalUpfrontCosts. unfold cash_purchase in *. fields. lra.
Defined.

(** X21.  With an interest-free loan held for part of its tenure the
    remaining loan counts as zero, so the interest paid during holding is
    negative: minus the part of the loan that is still owed. *)
Theorem zero_rate_interest_negative (inputs : PropertyInputs) :
  loanInterestRate inputs = 0 ->
  0 < holdingPeriodYears inputs < loanTenureYears inputs ->
  0 < loanAmount inputs ->
  interestDuringHolding inputs
    = - loanAmount inputs * (1 - holdingPeriodYears inputs / loanTenureYears inputs) /\
  interestDuringHolding inputs < 0.
Proof.
  intros Hrate [Hh Hten] Hloan.
  assert (Hrem : remainingLoan inputs = 0).
  { unfold remainingLoan, monthlyRate. rewrite Hrate.
    rewrite (bool_decide_eq_false_2 (0 / 100 / 12 > 0)) by lra.
    by rewrite andb_false_r. }
  assert (Hform : interestDuringHolding inputs
    = - loanAmount inputs * (1 - holdingPeriodYears inputs / loanTenureYears inputs)).
  { unfold interestDuringHolding, totalLoanPayments, annualLoanRepayment, monthlyPayment,
      calculateMonthlyPayment, Math_min.
    rewrite Hrem, Hrate. rewrite decide_False by lra. rewrite decide_True by done.
    rewrite Rmin_left by lra. field. lra. }
  split; [exact Hform|]. rewrite Hform.
  assert (0 < 1 - holdingPeriodYears inputs / loanTenureYears inputs).
  { assert (holdingPeriodYears inputs / loanTenureYears inputs < 1); [|lra].
    apply (Rmult_lt_reg_r (loanTenureYears inputs)); [lra|].
    replace (holdingPeriodYears inputs / loanTenureYears inputs * loanTenureYears inputs)
      with (holdingPeriodYears inputs) by (field; lra). lra. }
  nra.
Qed.

Lemma zero_rate_interest_negative_witness :
  interestDuringHolding zero_rate_inputs = - loanAmount zero_rate_inputs * (1 - 5 / 30) /\
  interestDuringHolding zero_rate_inputs < 0.
Proof.
  apply (zero_rate_interest_negative zero_rate_inputs).
  - reflexivity.
  - unfold zero_rate_inputs. fields. lra.
  - unfold loanAmount, zero_rate_inputs, DEFAULT_PRICE. fields. lra.
Defined.

(** X22.  For a let property with a positive rent the effective annual
    rental is the rent times [12 - weeks / 4.33]: it is not negative
    exactly up to 51.96 weeks of vacancy, and negative at 52 weeks. *)
Theorem vacancy_over_a_year (inputs : PropertyInputs) :
  isRentingOut inputs = true -> 0 < expectedMonthlyRental inputs ->
  effectiveAnnualRental inputs
    = expectedMonthlyRental inputs * (12 - vacancyWeeksPerYear inputs / 4.33) /\
  (0 <= effectiveAnnualRental inputs <-> vacancyWeeksPerYear inputs <= 51.96) /\
  (vacancyWeeksPerYear inputs = 52 -> effectiveAnnualRental inputs < 0).
Proof.
  intros Hrent Hpos.
  unfold effectiveAnnualRental, annualRentalIncome, monthlyRentalIncome, vacancyLoss.
  rewrite Hrent.
  set (rent := expectedMonthlyRental inputs) in *. set (w := vacancyWeeksPerYear inputs).
  assert (Hform : rent * 12 - rent * w / 4.33 = rent * (12 - w / 4.33))
    by (unfold Rdiv; ring).
  split; [exact Hform|]. rewrite Hform. split; [split|]; intros H.
  - assert (0 <= 12 - w / 4.33) by nra. lra.
  - assert (0 <= 12 - w / 4.33) by lra. nra.
  - rewrite H. assert (12 - 52 / 4.33 < 0) by lra. nra.
Qed.

Lemma vacancy_over_a_year_witness :
  effectiveAnnualRental (cash_purchase true 0) = 4000 * (12 - 0 / 4.33).
Proof.
  apply (vacancy_over_a_year (cash_purchase true 0)).
  - reflexivity.
  - unfold cash_purchase. fields. lra.
Defined.

(** X23.  After a change to a price that is not negative, the two rent
    estimates are whole hundreds that are not negative, each within 50 of
    its yield on the new price (3.2% and 3.5% a year, by the month), and
    the expected rental is not above the current rent. *)
Theorem handlePriceChange_estimates (prev : PropertyInputs) (newPrice : R) :
  0 <= newPrice ->
  let next := handlePriceChange prev newPrice in
  price next = newPrice /\
  (exists k : Z, (0 <= k)%Z /\ expectedMonthlyRental next = IZR k * 100) /\
  (exists k : Z, (0 <= k)%Z /\ currentMonthlyRent next = IZR k * 100) /\
  newPrice * 0.032 / 12 - 50 < expectedMonthlyRental next <= newPrice * 0.032 / 12 + 50 /\
  newPrice * 0.035 / 12 - 50 < currentMonthlyRent next <= newPrice * 0.035 / 12 + 50 /\
  expectedMonthlyRental next <= currentMonthlyRent next.
Proof.
  intros Hp next. subst next. unfold handlePriceChange. fields.
  unfold estimateMonthlyRental, estimateCurrentRent. cbv zeta.
  pose proof (Math_round_bounds (newPrice * 0.032 / 12 / 100)) as Hb1.
  pose proof (Math_round_bounds (newPrice * 0.035 / 12 / 100)) as Hb2.
  pose proof (Math_round_monotone (newPrice * 0.032 / 12 / 100)
                (newPrice * 0.035 / 12 / 100) ltac:(lra)) as Hmono.
  split; [reflexivity|]. split; [|split].
  - exists (Int_part (newPrice * 0.032 / 12 / 100 + 0.5)).
    split; [apply Int_part_nonneg; lra|reflexivity].
  - exists (Int_part (newPrice * 0.035 / 12 / 100 + 0.5)).
    split; [apply Int_part_nonneg; lra|reflexivity].
  - lra.
Qed.

Lemma handlePriceChange_estimates_witness :
  expectedMonthlyRental (handlePriceChange DEFAULT_INPUTS 2000000)
    <= currentMonthlyRent (handlePriceChange DEFAULT_INPUTS 2000000).
Proof.
  destruct (handlePriceChange_estimates DEFAULT_INPUTS 2000000) as (_ & _ & _ & _ & _ & H).
  - lra.
  - exact H.
Defined.

(** ** The URL codec: edges *)

Section UrlEdges.

Import UrlState.

#[local] Opaque COMPRESSED_KEYS REVERSE_KEYS.

Lemma filter_name_other (name : string) (l : list (string * string)) :
  filter (fun e => e.1 = name) (filter (fun e => e.1 <> name) l) = []
  /\ filter (fun e => e.1 <> name) (filter (fun e => e.1 <> name) l)
     = filter (fun e => e.1 <> name) l.
Proof.
  induction l as [|[n v] l [IH1 IH2]]; [done|].
  destruct (decide (n = name)) as [->|Hne].
  - by rewrite (filter_cons_False (fun e => e.1 <> name)) by (simpl; tauto).
  - rewrite (filter_cons_True (fun e => e.1 <> name)) by done.
    rewrite filter_cons_False by done. rewrite filter_cons_True by done.
    by rewrite IH2.
Qed.

(** After [set] the name has exactly one entry, with the value set, and
    the entries of the other names are as they were, in their order. *)
Lemma params_set_names params name value :
  filter (fun e => e.1 = name) (params_set params name value) = [(name, value)]
  /\ filter (fun e => e.1 <> name) (params_set params name value)
     = filter (fun e => e.1 <> name) params.
Proof.
  induction params as [|[n v] rest [IH1 IH2]]; cbn [params_set].
  - rewrite filter_cons_True by done. rewrite filter_cons_False by (simpl; tauto). done.
  - destruct (filter_name_other name rest) as [Hf1 Hf2].
    case_decide as Hn.
    + subst n. rewrite filter_cons_True by done.
      rewrite (filter_cons_False _ (name, value)) by (simpl; tauto).
      rewrite (filter_cons_False _ (name, v)) by (simpl; tauto).
      by rewrite Hf1, Hf2.
    + rewrite filter_cons_False by done.
      rewrite !(filter_cons_True (fun e => e.1 <> name)) by done.
      by rewrite IH1, IH2.
Qed.

Lemma params_set_elem params name value e :
  e ∈ params_set params name value -> e = (name, value) \/ e ∈ params.
Proof.
  induction params as [|[n v] rest IH]; cbn [params_set].
  - intros ->%list_elem_of_singleton. by left.
  - case_decide.
    + intros [->|[_ Hin]%list_elem_of_filter]%elem_of_cons; [by left|].
      right. by right.
    + intros [->|Hin]%elem_of_cons; [right; left|].
      destruct (IH Hin) as [->|Hrest]; [by left|right; by right].
Qed.

Lemma NoDup_fst_filter (P : string * string -> Prop) `{forall x, Decision (P x)}
    (l : list (string * string)) :
  NoDup l.*1 -> NoDup (filter P l).*1.
Proof.
  induction l as [|[n v] l IH]; [done|].
  intros [Hn Hnd]%NoDup_cons.
  destruct (decide (P (n, v))).
  - rewrite filter_cons_True by done. cbn [fmap list_fmap]. apply NoDup_cons. split; [|auto].
    intros ([n' v'] & Heq & [_ Hin]%list_elem_of_filter)%list_elem_of_fmap.
    simpl in Heq. subst n'. apply Hn. apply list_elem_of_fmap. by exists (n, v').
  - rewrite filter_cons_False by done. auto.
Qed.

Lemma params_set_NoDup params name value :
  NoDup params.*1 -> NoDup (params_set params name value).*1.
Proof.
  induction params as [|[n v] rest IH]; cbn [params_set].
  - intros _. apply NoDup_singleton.
  - intros [Hn Hnd]%NoDup_cons. case_decide.
    + subst n. cbn [fmap list_fmap]. apply NoDup_cons. split.
      * intros ([n' v'] & Heq & [Hne _]%list_elem_of_filter)%list_elem_of_fmap.
        simpl in *. congruence.
      * by apply NoDup_fst_filter.
    + cbn [fmap list_fmap]. apply NoDup_cons. split; [|auto].
      intros ([n' v'] & Heq & Hin)%list_elem_of_fmap. simpl in Heq. subst n'.
      apply params_set_elem in Hin as [[= -> ->]|Hin]; [done|].
      apply Hn. apply list_elem_of_fmap. by exists (n, v').
Qed.

Context {num : Type}.
Variable String_number : num -> string.
Variable parseFloat : string -> option num.

Lemma encode_step_written source params entry :
  entry ∈ source -> written_from String_number source params ->
  written_from String_number source (encode_step String_number params entry).
Proof.
  destruct entry as [key v]. intros Hsrc [Hnd Hall]. unfold encode_step.
  destruct (COMPRESSED_KEYS !! key) as [sk|] eqn:Hsk; [|done].
  destruct (truthy sk); [|done].
  assert (Hset : written_from String_number source
                   (params_set params sk (print_value String_number v))).
  { split; [by apply params_set_NoDup|].
    intros e [->|Hin]%params_set_elem; [|by apply Hall].
    by exists key, v. }
  by destruct v.
Qed.

Lemma encode_entries_written source entries params :
  (forall e, e ∈ entries -> e ∈ source) -> written_from String_number source params ->
  written_from String_number source (foldl (encode_step String_number) params entries).
Proof.
  revert params. induction entries as [|entry rest IH]; intros params Hsub Hinv; [done|].
  cbn [foldl]. apply IH.
  - intros e He. apply Hsub. by right.
  - apply encode_step_written; [apply Hsub; left|done].
Qed.

Lemma COMPRESSED_KEYS_ok :
  map_Forall (fun key (_ : string) => key_ok key = true) COMPRESSED_KEYS.
Proof. compute_done. Qed.

(** X24.  For a record of declared fields, full or not, the query string
    names no key twice, and its entries are the properties of the record,
    one for one: the short key of the field with the printed value. *)
Theorem encodeStateToUrl_keys (inputs : gmap string (value num)) :
  declared_fields_only inputs ->
  NoDup (encodeStateToUrl String_number inputs).*1 /\
  forall name text, (name, text) ∈ encodeStateToUrl String_number inputs <->
    exists key v, inputs !! key = Some v /\ COMPRESSED_KEYS !! key = Some name
                  /\ text = print_value String_number v.
Proof.
  intros Hdecl.
  destruct (encode_entries_written (map_to_list inputs) (map_to_list inputs) [])
    as [Hnd Hall].
  { done. }
  { split; [apply NoDup_nil_2|]. intros e He. by apply elem_of_nil in He. }
  split; [exact Hnd|].
  intros name text. split.
  - intros Hin. destruct (Hall _ Hin) as (key & v & Hsrc & Hsk & Htext).
    exists key, v. by rewrite <- elem_of_map_to_list.
  - intros (key & v & Hv & Hsk & ->).
    unfold encodeStateToUrl, encode_entries. rewrite encode_entries_ok.
    + cbn [app]. apply list_elem_of_fmap. exists (key, v). split.
      * unfold encoded_entry, shortKey_of. cbn [fst snd]. by rewrite Hsk.
      * by apply elem_of_map_to_list.
    + apply Forall_forall. intros [k w] Hel%elem_of_map_to_list. cbn [fst].
      destruct (Hdecl k w Hel) as [sk Hk].
      exact (COMPRESSED_KEYS_ok k sk Hk).
    + apply NoDup_fst_map_to_list.
    + intros e _. cbn [fmap list_fmap]. apply not_elem_of_nil.
Qed.

Lemma decode_step_typeof (defaults result : gmap string (value num)) entry :
  typeof <$> result = typeof <$> defaults ->
  typeof <$> decode_step parseFloat defaults result entry = typeof <$> defaults.
Proof.
  intros Hinv. destruct entry as [shortKey text]. unfold decode_step.
  destruct (REVERSE_KEYS !! shortKey) as [fullKey|]; [|done].
  destruct (truthy fullKey); [|done].
  destruct (defaults !! fullKey) as [d|] eqn:Hd; [|done].
  assert (Hset : forall v, typeof v = typeof d ->
            typeof <$> <[fullKey := v]> result = typeof <$> defaults).
  { intros v Hv. rewrite fmap_insert, Hinv, Hv. apply insert_id.
    by rewrite lookup_fmap, Hd. }
  destruct d; [destruct (parseFloat text); [|done]| |]; by apply Hset.
Qed.

Lemma decode_keeps_typeof (searchParams : list (string * string))
    (defaults : gmap string (value num)) :
  typeof <$> decodeStateFromUrl parseFloat searchParams defaults = typeof <$> defaults.
Proof.
  unfold decodeStateFromUrl.
  assert (Hgen : forall result, typeof <$> result = typeof <$> defaults ->
            typeof <$> foldl (decode_step parseFloat defaults) result searchParams
            = typeof <$> defaults).
  { induction searchParams as [|entry rest IH]; intros result Hinv; [done|].
    cbn [foldl]. apply IH. by apply decode_step_typeof. }
  by apply Hgen.
Qed.

(** X25.  Whatever the query string holds, over defaults of declared
    fields the decoded record has the properties of the defaults and no
    others, each with a value of the type its default has: a full record
    of defaults decodes to a full record. *)
Theorem decodeStateFromUrl_keeps_shape (searchParams : list (string * string))
    (defaults : gmap string (value num)) :
  declared_fields_only defaults ->
  typeof <$> decodeStateFromUrl parseFloat searchParams defaults = typeof <$> defaults /\
  dom (decodeStateFromUrl parseFloat searchParams defaults) = dom defaults /\
  (is_PropertyInputs defaults ->
   is_PropertyInputs (decodeStateFromUrl parseFloat searchParams defaults)).
Proof.
  intros _. pose proof (decode_keeps_typeof searchParams defaults) as Hty.
  split; [exact Hty|]. split.
  - rewrite <- (dom_fmap_L typeof), Hty. apply dom_fmap_L.
  - unfold is_PropertyInputs. by rewrite Hty.
Qed.

(** X26.  Over defaults of declared fields, entries whose key is not a
    short key, or stands for a field that the defaults do not have, change
    nothing: decoding them, or an empty query string, gives the defaults. *)
Theorem decodeStateFromUrl_ignores_unknown (searchParams : list (string * string))
    (defaults : gmap string (value num)) :
  declared_fields_only defaults ->
  Forall (fun e => match REVERSE_KEYS !! e.1 with
                   | Some fullKey => defaults !! fullKey = None
                   | None => True
                   end) searchParams ->
  decodeStateFromUrl parseFloat searchParams defaults = defaults.
Proof.
  intros _ Hall. unfold decodeStateFromUrl. generalize defaults at 2 3 as result.
  induction searchParams as [|[shortKey text] rest IH]; intros result; [done|].
  apply Forall_cons in Hall as [Hhead Hall]. cbn [foldl].
  rewrite <- (IH Hall result) at 2. f_equal.
  unfold decode_step. simpl in Hhead.
  destruct (REVERSE_KEYS !! shortKey) as [fullKey|]; [|done].
  rewrite Hhead. by destruct (truthy fullKey).
Qed.

(** X27.  Over defaults of declared fields, a further entry for a known
    key touches that field alone, and overrides what came before: a
    boolean field reads true for ["1"] and false for any other text, a
    string field takes the text, and a number field takes the number
    parsed, or stays as it was when the text is no number. *)
Theorem decodeStateFromUrl_last_entry (searchParams : list (string * string))
    (defaults : gmap string (value num)) (shortKey fullKey text : string) :
  declared_fields_only defaults ->
  REVERSE_KEYS !! shortKey = Some fullKey -> truthy fullKey = true ->
  let before := decodeStateFromUrl parseFloat searchParams defaults in
  let after := decodeStateFromUrl parseFloat (searchParams ++ [(shortKey, text)]) defaults in
  (forall key, key <> fullKey -> after !! key = before !! key) /\
  (forall b, defaults !! fullKey = Some (VBoolean b) ->
     after !! fullKey = Some (VBoolean (bool_decide (text = "1")))) /\
  (forall s, defaults !! fullKey = Some (VString s) ->
     after !! fullKey = Some (VString text)) /\
  (forall n, defaults !! fullKey = Some (VNumber n) ->
     after !! fullKey = match parseFloat text with
                        | Some parsed => Some (VNumber parsed)
                        | None => before !! fullKey
                        end).
Proof.
  intros _ Hrev Htruthy before after. subst before after.
  unfold decodeStateFromUrl. rewrite foldl_app. cbn [foldl].
  set (before := foldl _ defaults searchParams).
  unfold decode_step at 1 2 3 4. rewrite Hrev, Htruthy.
  split; [|split; [|split]].
  - intros key Hne.
    destruct (defaults !! fullKey) as [[n|b|s]|]; [destruct (parseFloat text)| | |];
      try done; by rewrite lookup_insert_ne.
  - intros b ->. by rewrite lookup_insert_eq.
  - intros s ->. by rewrite lookup_insert_eq.
  - intros n ->. destruct (parseFloat text); [by rewrite lookup_insert_eq|done].
Qed.

Hypothesis parseFloat_String : forall n, parseFloat (String_number n) = Some n.

(** X28.  A record that holds only some of the declared fields, each with
    a value of its declared type, decodes to itself laid over the
    defaults: the fields it lacks fall back to their defaults. *)
Theorem url_round_trip_partial (inputs defaults : gmap string (value num)) :
  (forall key v, inputs !! key = Some v ->
     Object_fromEntries PropertyInputs_fields !! key = Some (typeof v)) ->
  is_PropertyInputs defaults ->
  decodeStateFromUrl parseFloat (encodeStateToUrl String_number inputs) defaults
  = inputs ∪ defaults.
Proof.
  intros Hin Hdef.
  assert (Hall : Forall (fun e => key_ok e.1 = true
            /\ exists d, defaults !! e.1 = Some d /\ typeof d = typeof e.2)
            (map_to_list inputs)).
  { apply Forall_forall. intros [key v] Hel%elem_of_map_to_list. simpl.
    pose proof (Hin _ _ Hel) as Hf. split.
    - apply (fields_keys_ok _ _ Hf).
    - unfold is_PropertyInputs in Hdef. rewrite <- Hdef, lookup_fmap in Hf.
      destruct (defaults !! key) as [d|]; [|done]. exists d. split; [done|].
      simpl in Hf. congruence. }
  assert (Hnd : NoDup (map_to_list inputs).*1) by apply NoDup_fst_map_to_list.
  unfold decodeStateFromUrl, encodeStateToUrl, encode_entries.
  rewrite encode_entries_ok; [| |done|].
  - cbn [app]. rewrite (decode_entries_ok String_number parseFloat parseFloat_String) by done.
    apply map_eq. intros k. rewrite foldl_insert_lookup by done.
    rewrite list_to_map_to_list, lookup_union.
    by destruct (inputs !! k), (defaults !! k).
  - eapply Forall_impl; [exact Hall|]. by intros ? [? _].
  - intros e _. simpl. apply not_elem_of_nil.
Qed.

End UrlEdges.

Lemma encodeStateToUrl_keys_witness :
  exists key v, UrlState.sample_inputs !! key = Some v
    /\ UrlState.COMPRESSED_KEYS !! key = Some "p"
    /\ "1500000" = UrlState.print_value UrlState.String_Z v.
Proof.
  apply (encodeStateToUrl_keys UrlState.String_Z UrlState.sample_inputs).
  - unfold declared_fields_only. compute_done.
  - compute_done.
Defined.

Lemma decodeStateFromUrl_keeps_shape_witness :
  UrlState.is_PropertyInputs
    (UrlState.decodeStateFromUrl UrlState.parseFloat_Z
       [("p", "abc"); ("zz", "1"); ("ro", "0")] UrlState.other_defaults).
Proof.
  apply decodeStateFromUrl_keeps_shape.
  - unfold declared_fields_only. compute_done.
  - unfold UrlState.is_PropertyInputs. compute_done.
Defined.

Lemma decodeStateFromUrl_ignores_unknown_witness :
  UrlState.decodeStateFromUrl UrlState.parseFloat_Z
    [("zz", "1"); ("utm_source", "mail")] UrlState.other_defaults
  = UrlState.other_defaults.
Proof.
  apply decodeStateFromUrl_ignores_unknown.
  { unfold declared_fields_only. compute_done. }
  apply Forall_cons. split; [vm_compute; exact I|].
  apply Forall_cons. split; [vm_compute; exact I|].
  apply Forall_nil_2.
Defined.

Lemma decodeStateFromUrl_last_entry_witness :
  UrlState.decodeStateFromUrl UrlState.parseFloat_Z ([("ro", "1")] ++ [("ro", "yes")])
    UrlState.other_defaults !! "isRentingOut"
  = Some (UrlState.VBoolean (bool_decide ("yes" = "1"))).
Proof.
  destruct (decodeStateFromUrl_last_entry UrlState.parseFloat_Z [("ro", "1")]
              UrlState.other_defaults "ro" "isRentingOut" "yes") as (_ & Hbool & _).
  - unfold declared_fields_only. compute_done.
  - vm_compute. reflexivity.
  - vm_compute. reflexivity.
  - apply (Hbool true). vm_compute. reflexivity.
Defined.

Lemma url_round_trip_partial_witness :
  UrlState.decodeStateFromUrl UrlState.parseFloat_Z
    (UrlState.encodeStateToUrl UrlState.String_Z price_only) UrlState.other_defaults
  = price_only ∪ UrlState.other_defaults.
Proof.
  apply (url_round_trip_partial UrlState.String_Z UrlState.parseFloat_Z
           parseFloat_String_Z).
  - unfold price_only. intros key v [<- <-]%lookup_singleton_Some.
    vm_compute. reflexivity.
  - unfold UrlState.is_PropertyInputs. compute_done.
Defined.

(** ** [getInitialInputs] *)

Lemma object_of_inputs_full (i : PropertyInputs) :
  UrlState.is_PropertyInputs (object_of_inputs i).
Proof. unfold UrlState.is_PropertyInputs, object_of_inputs. compute_done. Qed.

(** X29.  Whatever the page address holds, and where there is no window
    at all, the initial inputs are a full record: what [decodeStateFromUrl]
    makes of the entries of the address, none where there is no window,
    over [DEFAULT_INPUTS]. *)
Theorem getInitialInputs_full (parseFloat : string -> option R)
    (window : option (list (string * string))) :
  UrlState.is_PropertyInputs (getInitialInputs parseFloat window) /\
  getInitialInputs parseFloat window
  = UrlState.decodeStateFromUrl parseFloat (default [] window)
      (object_of_inputs DEFAULT_INPUTS).
Proof.
  assert (Heq : getInitialInputs parseFloat window
    = UrlState.decodeStateFromUrl parseFloat (default [] window)
        (object_of_inputs DEFAULT_INPUTS)).
  { destruct window as [[|entry rest]|]; reflexivity. }
  split; [|exact Heq].
  rewrite Heq. unfold UrlState.is_PropertyInputs.
  rewrite decode_keeps_typeof. apply object_of_inputs_full.
Qed.
